(** * ATC Transcript Analyzer: the analysis pipeline and the upload form

    A shallow embedding of the Python pipeline of the design document
    (FatigueAgent, SafetyAgent, SummarizerAgent, [process_shift], the
    [/analyze-shift] endpoint) and of the upload form of the dashboard
    (frontend/src/pages: [UploadAudio]).

    Conventions.
    - Python exceptions are values of [exn], the classes derived from
      [Exception]; a computation that may raise returns a [result]. The
      cancellation of a task and interrupts are outside the model.
    - Timestamps and latencies are Python floats: binary64 numbers
      ([float], the specification floats of the Standard Library, with
      infinities and NaN); their subtraction, addition and division round
      to nearest, ties to even. A decimal literal in the place of a float
      stands for the float nearest to it.
    - Text is a [string] of bytes, the UTF-8 encoding of the text;
      [lower]/[upper] are the ASCII case maps.
    - JSON-like Python values (dicts returned by the agents, metadata
      fields) are values of [json]. *)

From Stdlib Require Import String Ascii List ZArith QArith Qminmax Lia Lqa Bool.
From Stdlib Require Import SpecFloat.
From stdpp Require Import base option list gmap strings.

Local Open Scope string_scope.
Local Open Scope list_scope.

(** ** Python values and exceptions *)

(** The exceptions of the program, all of them classes derived from
    [Exception]; [External] is the failure of a service. *)
Inductive exn : Type :=
| NameError (name : string)
| ValueError (msg : string)
| KeyError (key : string)
| TypeError (msg : string)
| IndexError
| ZeroDivisionError
| External (reason : string).

Inductive result (A : Type) : Type :=
| Ok (a : A)
| Raise (e : exn).

Arguments Ok {A} a.
Arguments Raise {A} e.

#[global] Instance result_ret : MRet result := fun A a => Ok a.
#[global] Instance result_bind : MBind result := fun A B f r =>
  match r with
  | Ok a => f a
  | Raise e => Raise e
  end.

Definition is_ok {A} (r : result A) : bool :=
  match r with Ok _ => true | Raise _ => false end.

(** A Python float: a binary64 number. *)
Definition float : Type := spec_float.

Module Float.

Definition prec : Z := 53.
Definition emax : Z := 1024.

Definition zero : float := S754_zero false.

(** [float(n)] of an integer. *)
Definition of_Z (n : Z) : float := binary_normalize prec emax n 0 false.

(** The float nearest to a decimal literal (numerator and denominator
    below 2^53). *)
Definition of_Q (q : Q) : float :=
  SFdiv prec emax (of_Z (Qnum q)) (of_Z (Z.pos (Qden q))).

Definition add : float -> float -> float := SFadd prec emax.
Definition sub : float -> float -> float := SFsub prec emax.
Definition div : float -> float -> float := SFdiv prec emax.

(** [x < y] and [x == y]: false when either is NaN. *)
Definition ltb : float -> float -> bool := SFltb.
Definition eqb : float -> float -> bool := SFeqb.

(** The next float below. *)
Definition pred : float -> float := SFpred prec emax.

Definition is_nan (x : float) : bool :=
  match x with S754_nan => true | _ => false end.

End Float.

Coercion Float.of_Q : Q >-> float.

#[warnings="-register-all"]
Inductive json : Type :=
| JNull
| JBool (b : bool)
| JNum (q : Q)
| JFloat (f : float)
| JStr (s : string)
| JList (l : list json)
| JDict (d : list (string * json)).

(** ** Transcript entries *)

Record TranscriptEntry : Type := mkEntry {
  timestamp : float;
  speaker : string;
  text : string;
  confidence : option Q
}.

Arguments mkEntry timestamp%_Q speaker text confidence.

Module Py.

(** [l[i]] for a non-negative index. *)
Definition getitem {A} (l : list A) (i : nat) : result A :=
  match l !! i with
  | Some x => Ok x
  | None => Raise IndexError
  end.

(** [sum(l)] of floats: added one by one, left to right, starting
    from 0. *)
Definition sum (l : list float) : float := fold_left Float.add l Float.zero.

Definition Qlt_bool (x y : Q) : bool := negb (Qle_bool y x).

(** [max(l)]: the item kept is replaced by a later one that compares
    greater; raises on the empty list. *)
Definition max (l : list float) : result float :=
  match l with
  | [] => Raise (ValueError "max() arg is an empty sequence")
  | x :: xs => Ok (fold_left (fun m y => if Float.ltb m y then y else m) xs x)
  end.

(** [min(l)]: the item kept is replaced by a later one that compares
    less; raises on the empty list. *)
Definition min (l : list float) : result float :=
  match l with
  | [] => Raise (ValueError "min() arg is an empty sequence")
  | x :: xs => Ok (fold_left (fun m y => if Float.ltb y m then y else m) xs x)
  end.

(** [a / n] for a float [a] and a length [n]. *)
Definition truediv (a : float) (n : nat) : result float :=
  match n with
  | O => Raise ZeroDivisionError
  | S _ => Ok (Float.div a (Float.of_Z (Z.of_nat n)))
  end.

(** Truthiness of a list: [if times]. *)
Definition truthy {A} (l : list A) : bool :=
  match l with [] => false | _ :: _ => true end.

(** [a // b] on integers: floor division. *)
Definition floordiv (a b : Z) : result Z :=
  if (b =? 0)%Z then Raise ZeroDivisionError else Ok (a / b)%Z.

(** ASCII case maps, character by character. *)
Definition lower_ascii (c : ascii) : ascii :=
  let n := nat_of_ascii c in
  if Nat.leb 65 n && Nat.leb n 90 then ascii_of_nat (n + 32) else c.

Definition upper_ascii (c : ascii) : ascii :=
  let n := nat_of_ascii c in
  if Nat.leb 97 n && Nat.leb n 122 then ascii_of_nat (n - 32) else c.

Fixpoint lower (s : string) : string :=
  match s with
  | EmptyString => EmptyString
  | String c s' => String (lower_ascii c) (lower s')
  end.

Fixpoint upper (s : string) : string :=
  match s with
  | EmptyString => EmptyString
  | String c s' => String (upper_ascii c) (upper s')
  end.

(** The scan of [s.count(sub)] for a non-empty [sub]: left to right; a
    match at the current position is counted and the scan resumes after
    it ([skip] characters are still covered by the last match), so the
    occurrences counted do not overlap. *)
Fixpoint count_from (sub s : string) (skip : nat) : nat :=
  match s with
  | EmptyString => 0
  | String _ s' =>
      match skip with
      | S k => count_from sub s' k
      | O =>
          if String.prefix sub s
          then S (count_from sub s' (String.length sub - 1))
          else count_from sub s' 0
      end
  end.

(** [s.count(sub)]: the number of non-overlapping occurrences; the empty
    pattern occurs [len(s) + 1] times. *)
Definition count (s sub : string) : nat :=
  match sub with
  | EmptyString => S (String.length s)
  | String _ _ => count_from sub s 0
  end.

(** [sep.join(parts)]. *)
Fixpoint join (sep : string) (parts : list string) : string :=
  match parts with
  | [] => ""
  | [p] => p
  | p :: rest => p +:+ sep +:+ join sep rest
  end.

(** The elements at positions [0, k, 2k, ...] for [k > 0]; [skip] is the
    number of elements to pass over before the next one taken. *)
Fixpoint stride_from {A} (k skip : nat) (l : list A) : list A :=
  match l with
  | [] => []
  | x :: l' =>
      match skip with
      | O => x :: stride_from k (k - 1) l'
      | S j => stride_from k j l'
      end
  end.

(** [l[::step]]. *)
Definition slice_step {A} (l : list A) (step : Z) : result (list A) :=
  if (step =? 0)%Z then Raise (ValueError "slice step cannot be zero")
  else if (0 <? step)%Z then Ok (stride_from (Z.to_nat step) 0 l)
  else Ok (stride_from (Z.to_nat (- step)) 0 (rev l)).

(** [l[:stop]]. *)
Definition slice_stop {A} (l : list A) (stop : Z) : list A :=
  if (0 <=? stop)%Z then firstn (Z.to_nat stop) l
  else firstn (length l - Z.to_nat (- stop)) l.

(** Python dicts with string keys, in insertion order. *)
Fixpoint assoc_get (d : list (string * json)) (k : string) : option json :=
  match d with
  | [] => None
  | (k', v) :: d' => if String.eqb k' k then Some v else assoc_get d' k
  end.

Fixpoint assoc_set (d : list (string * json)) (k : string) (v : json)
    : list (string * json) :=
  match d with
  | [] => [(k, v)]
  | (k', v') :: d' =>
      if String.eqb k' k then (k, v) :: d' else (k', v') :: assoc_set d' k v
  end.

(** [obj[key]] for a string key. *)
Definition subscript (obj : json) (key : string) : result json :=
  match obj with
  | JDict d =>
      match assoc_get d key with
      | Some v => Ok v
      | None => Raise (KeyError key)
      end
  | _ => Raise (TypeError "object is not subscriptable by a string key")
  end.

(** [obj[key] = v] for a string key. *)
Definition setitem (obj : json) (key : string) (v : json) : result json :=
  match obj with
  | JDict d => Ok (JDict (assoc_set d key v))
  | _ => Raise (TypeError "object does not support item assignment")
  end.

(** [metadata[key]] on a metadata dict. *)
Definition lookup_key (d : gmap string json) (key : string) : result json :=
  match d !! key with
  | Some v => Ok v
  | None => Raise (KeyError key)
  end.

(** [len(obj)]. *)
Definition len (obj : json) : result nat :=
  match obj with
  | JList l => Ok (length l)
  | JDict d => Ok (length d)
  | JStr s => Ok (String.length s)
  | _ => Raise (TypeError "object has no len()")
  end.

End Py.

(** ** FatigueAgent: response times *)

Record ResponseTimes : Type := mkResponseTimes {
  rt_avg : float;
  rt_max : float;
  rt_min : float
}.

Module FatigueMetrics.

(** One iteration of the loop [for i in range(len(transcript) - 1)];
    [acc] is the list [times] built so far. *)
Definition response_times_step (transcript : list TranscriptEntry)
    (acc : result (list float)) (i : nat) : result (list float) :=
  times ← acc;
  a ← Py.getitem transcript i;
  if String.eqb (speaker a) "pilot" then
    b ← Py.getitem transcript (i + 1);
    if String.eqb (speaker b) "controller" then
      b' ← Py.getitem transcript (i + 1);
      a' ← Py.getitem transcript i;
      let delta := Float.sub (timestamp b') (timestamp a') in
      Ok (times ++ [delta])
    else Ok times
  else Ok times.

(** The list [times] after the loop; [range(len - 1)] is empty when
    [len] is 0 or 1. *)
Definition response_deltas (transcript : list TranscriptEntry) : result (list float) :=
  fold_left (response_times_step transcript)
            (seq 0 (length transcript - 1)) (Ok []).

(** The integer 0 of the [else] branches is the float zero here: it
    compares equal to it. *)
Definition _calculate_response_times (transcript : list TranscriptEntry)
    : result ResponseTimes :=
  times ← response_deltas transcript;
  avg ← (if Py.truthy times then Py.truediv (Py.sum times) (length times)
         else Ok Float.zero);
  mx ← (if Py.truthy times then Py.max times else Ok Float.zero);
  mn ← (if Py.truthy times then Py.min times else Ok Float.zero);
  Ok {| rt_avg := avg; rt_max := mx; rt_min := mn |}.

(** The latencies in the words of the specification: one for every
    adjacent pair (pilot, controller), in transcript order. *)
Fixpoint adjacent_latencies (transcript : list TranscriptEntry) : list float :=
  match transcript with
  | a :: rest =>
      match rest with
      | b :: _ =>
          if String.eqb (speaker a) "pilot" && String.eqb (speaker b) "controller"
          then Float.sub (timestamp b) (timestamp a) :: adjacent_latencies rest
          else adjacent_latencies rest
      | [] => []
      end
  | [] => []
  end.

End FatigueMetrics.

(** ** FatigueAgent: hesitations and transcript samples *)

Module FatigueText.

Definition fillers : list string := ["uh"; "um"; "er"; "ah"; "..."].

(** [sum(text.count(filler) for filler in fillers)] on the lowered text. *)
Definition filler_occurrences (lowered : string) : nat :=
  list_sum (map (fun filler => Py.count lowered filler) fillers).

(** One iteration of [for item in transcript]. *)
Definition hesitations_step (count : nat) (item : TranscriptEntry) : nat :=
  if String.eqb (speaker item) "controller" then
    let text := Py.lower (text item) in
    count + filler_occurrences text
  else count.

Definition _count_hesitations (transcript : list TranscriptEntry) : nat :=
  fold_left hesitations_step transcript 0.

(** The count in the words of the specification: the occurrences of the
    fillers, summed over the controller utterances. *)
Definition controller_utterances (transcript : list TranscriptEntry) : list string :=
  map text (filter (fun e => speaker e = "controller") transcript).

Definition hesitation_total (transcript : list TranscriptEntry) : nat :=
  list_sum (map (fun t => filler_occurrences (Py.lower t))
                (controller_utterances transcript)).

Section Samples.
(** [str(x)] of a timestamp, as the f-string renders it. *)
Variable str_of_num : float -> string.

Definition format_sample (s : TranscriptEntry) : string :=
  "[" +:+ str_of_num (timestamp s) +:+ "] " +:+ Py.upper (speaker s)
      +:+ ": " +:+ text s.

Definition _format_samples (transcript : list TranscriptEntry)
    (num_samples : Z) : result string :=
  interval ← Py.floordiv (Z.of_nat (length transcript)) num_samples;
  strided ← Py.slice_step transcript interval;
  let samples := Py.slice_stop strided num_samples in
  let formatted := map format_sample samples in
  Ok (Py.join (String (ascii_of_nat 10) "") formatted).

(** The entries selected by [_format_samples]. *)
Definition selected_samples (transcript : list TranscriptEntry)
    (num_samples : Z) : result (list TranscriptEntry) :=
  interval ← Py.floordiv (Z.of_nat (length transcript)) num_samples;
  strided ← Py.slice_step transcript interval;
  Ok (Py.slice_stop strided num_samples).
End Samples.

End FatigueText.
(** ** The world the pipeline runs in *)

Inductive agent : Type := Fatigue | Safety | Summarizer.

Inductive stage : Type :=
| Download
| Metadata
| Transcribe
| Agent (a : agent)
| SaveReport
| UploadReport.

(** Ghost events: which stage was entered with which upstream results,
    and how it ended. *)
Inductive event : Type :=
| Started (s : stage) (inputs : list json)
| Finished (s : stage) (output : json)
| Failed (s : stage) (e : exn).

Record World : Type := mkWorld {
  llm_calls : list string;           (* prompts sent to the model backend *)
  db : gmap string json;             (* report store, keyed by shift id *)
  s3_reports : gmap string json;     (* reports uploaded to S3 *)
  error_log : list (string * exn);   (* log_error *)
  trace : list event;                (* ghost *)
  background_tasks : list string     (* process_shift runs not yet finished *)
}.

Definition M (A : Type) : Type := World -> result A * World.

#[global] Instance M_ret : MRet M := fun A a w => (Ok a, w).
#[global] Instance M_bind : MBind M := fun A B f m w =>
  match m w with
  | (Ok a, w') => f a w'
  | (Raise e, w') => (Raise e, w')
  end.

Definition lift {A} (r : result A) : M A := fun w => (r, w).

Definition emit (ev : event) : M unit := fun w =>
  (Ok tt, mkWorld (llm_calls w) (db w) (s3_reports w) (error_log w)
                  (trace w ++ [ev]) (background_tasks w)).

(** A stage of a pipeline: the ghost trace records its start, with the
    upstream results it was given, and its outcome. *)
Definition run_stage {A} (s : stage) (inputs : list json) (show : A -> json)
    (body : M A) : M A := fun w =>
  match body (snd (emit (Started s inputs) w)) with
  | (Ok a, w') => (Ok a, snd (emit (Finished s (show a)) w'))
  | (Raise e, w') => (Raise e, snd (emit (Failed s e) w'))
  end.

(** What the code calls but the repository does not define. *)
Record Collaborators : Type := mkCollaborators {
  Audio : Type;
  download_from_s3 : string -> result Audio;
  get_shift_metadata : string -> result (gmap string json);
  transcribe : Audio -> result (list TranscriptEntry);
  (* the reply of the model backend to its n-th call, given the prompt *)
  backend : nat -> string -> result string;
  _extract_json : string -> result json;
  _get_hours_on_duty : gmap string json -> result Q;
  _get_hours : gmap string json -> result Q;
  _format_full_transcript : list TranscriptEntry -> result string;
  (* the literal text of each f-string around its interpolated values *)
  prompt_template : agent -> list string -> string;
  str_of_num : Q -> string;          (* str(x) of a number *)
  str_of_float : float -> string;    (* str(x) of a float *)
  format_1f : float -> string;       (* the .1f format of a float *)
  str_of_json : json -> string;      (* str(x) of a value *)
  str_of_exn : exn -> string;        (* str(e) *)
  now : json;                        (* datetime.now() *)
  globals : gmap string json;        (* module-level names *)
  db_fault : string -> option exn;   (* a failure of the store, per shift *)
  s3_fault : string -> option exn    (* a failure of the upload, per shift *)
}.

Section Agents.
Variable env : Collaborators.

(** [self.client.messages.create(...)] followed by
    [response.content[0].text]: one call of the model backend. *)
Definition client_create (prompt : string) : M string := fun w =>
  (backend env (length (llm_calls w)) prompt,
   mkWorld (llm_calls w ++ [prompt]) (db w) (s3_reports w) (error_log w)
           (trace w) (background_tasks w)).

Definition str_of_nat (n : nat) : string :=
  str_of_num env (inject_Z (Z.of_nat n)).

Definition FatigueAgent_analyze (transcript : list TranscriptEntry)
    (metadata : gmap string json) : M json :=
  response_times ← lift (FatigueMetrics._calculate_response_times transcript);
  let hesitation_count := FatigueText._count_hesitations transcript in
  hours_on_duty ← lift (_get_hours_on_duty env metadata);
  start_time ← lift (Py.lookup_key metadata "start_time");
  schedule_type ← lift (Py.lookup_key metadata "schedule_type");
  position ← lift (Py.lookup_key metadata "position");
  samples ← lift (FatigueText._format_samples (str_of_float env) transcript 10);
  let prompt := prompt_template env Fatigue
    [ str_of_num env hours_on_duty; str_of_json env start_time;
      str_of_json env schedule_type; str_of_json env position;
      format_1f env (rt_avg response_times); str_of_nat hesitation_count;
      str_of_nat (length transcript); samples ] in
  response ← client_create prompt;
  result ← lift (_extract_json env response);
  result ← lift (Py.setitem result "metrics" (JDict
    [ ("avg_response_time", JFloat (rt_avg response_times));
      ("max_response_time", JFloat (rt_max response_times));
      ("hesitation_count", JNum (inject_Z (Z.of_nat hesitation_count)));
      ("hours_on_duty", JNum hours_on_duty) ]));
  mret result.

Definition SafetyAgent_analyze (transcript : list TranscriptEntry)
    (metadata : gmap string json) : M json :=
  facility ← lift (Py.lookup_key metadata "facility");
  position ← lift (Py.lookup_key metadata "position");
  full ← lift (_format_full_transcript env transcript);
  let prompt := prompt_template env Safety
    [ str_of_json env facility; str_of_json env position; full ] in
  response ← client_create prompt;
  lift (_extract_json env response).

Definition SummarizerAgent_analyze (transcript : list TranscriptEntry)
    (metadata : gmap string json) (fatigue_result safety_result : json)
    : M json :=
  controller_id ← lift (Py.lookup_key metadata "controller_id");
  start_time ← lift (Py.lookup_key metadata "start_time");
  hours ← lift (_get_hours env metadata);
  position ← lift (Py.lookup_key metadata "position");
  schedule_type ← lift (Py.lookup_key metadata "schedule_type");
  fatigue_score ← lift (Py.subscript fatigue_result "fatigue_score");
  severity ← lift (Py.subscript fatigue_result "severity");
  indicators ← lift (Py.subscript fatigue_result "indicators");
  safety_score ← lift (Py.subscript safety_result "safety_score");
  issues_found ← lift (Py.subscript safety_result "issues_found");
  issue_count ← lift (Py.len issues_found);
  requires_review ← lift (Py.subscript safety_result "requires_immediate_review");
  let prompt := prompt_template env Summarizer
    [ str_of_json env controller_id; str_of_json env start_time;
      str_of_num env hours; str_of_json env position;
      str_of_json env schedule_type; str_of_json env fatigue_score;
      str_of_json env severity; str_of_json env indicators;
      str_of_json env safety_score; str_of_nat issue_count;
      str_of_json env requires_review ] in
  response ← client_create prompt;
  lift (_extract_json env response).

End Agents.
(** ** Stores and logs *)

Section Stores.
Variable env : Collaborators.

(** Modelled from the spec: [save_to_database] and [db.save_report] are
    not defined in the repository. The Report Store is keyed by shift id
    and a write is all-or-nothing: [put(shiftId, report)] either replaces
    the whole report of the shift or fails and changes nothing. *)
Definition save_to_database (report : json) : M unit := fun w =>
  match Py.subscript report "shift_id" with
  | Ok (JStr shift_id) =>
      match db_fault env shift_id with
      | Some e => (Raise e, w)
      | None =>
          (Ok tt, mkWorld (llm_calls w) (<[shift_id := report]> (db w))
                          (s3_reports w) (error_log w) (trace w)
                          (background_tasks w))
      end
  | Ok _ => (Raise (TypeError "shift_id is not a string"), w)
  | Raise e => (Raise e, w)
  end.

(** Modelled from the spec: [upload_report_to_s3] is not defined in the
    repository; the upload stores the document under the shift id or
    fails and changes nothing. *)
Definition upload_report_to_s3 (shift_id : string) (doc : json) : M unit := fun w =>
  match s3_fault env shift_id with
  | Some e => (Raise e, w)
  | None =>
      (Ok tt, mkWorld (llm_calls w) (db w) (<[shift_id := doc]> (s3_reports w))
                      (error_log w) (trace w) (background_tasks w))
  end.

(** Modelled from the spec: [log_error] is not defined in the
    repository; it records the failure reason of the shift. *)
Definition log_error (shift_id : string) (e : exn) : M unit := fun w =>
  (Ok tt, mkWorld (llm_calls w) (db w) (s3_reports w)
                  (error_log w ++ [(shift_id, e)]) (trace w)
                  (background_tasks w)).

(** Modelled from the spec: [get_from_database] is not defined in the
    repository; [get(shiftId)] is the stored report or absence. *)
Definition get_from_database (shift_id : string) (w : World) : option json :=
  db w !! shift_id.

(** [try: body except Exception as e: handler(e)]: every value of
    [exn] is an [Exception], and is caught. *)
Definition try_except {A} (body : M A) (handler : exn -> M A) : M A := fun w =>
  match body w with
  | (Ok a, w') => (Ok a, w')
  | (Raise e, w') => handler e w'
  end.

End Stores.

(** ** main.py *)

Module Main.
Section Main.
Variable env : Collaborators.

Definition no_output {A} (_ : A) : json := JNull.

(** The body of the [try] block of [process_shift]. *)
Definition process_shift_body (shift_id : string) : M json :=
  audio_data ← run_stage Download [] no_output (lift (download_from_s3 env shift_id));
  metadata ← run_stage Metadata [] no_output (lift (get_shift_metadata env shift_id));
  transcript ← run_stage Transcribe [] no_output (lift (transcribe env audio_data));
  fatigue ← run_stage (Agent Fatigue) [] id
              (FatigueAgent_analyze env transcript metadata);
  safety ← run_stage (Agent Safety) [] id
              (SafetyAgent_analyze env transcript metadata);
  summary ← run_stage (Agent Summarizer) [fatigue; safety] id
              (SummarizerAgent_analyze env transcript metadata fatigue safety);
  _ ← run_stage SaveReport [fatigue; safety; summary] no_output
        (save_to_database env (JDict
          [ ("shift_id", JStr shift_id); ("fatigue", fatigue);
            ("safety", safety); ("summary", summary) ]));
  _ ← run_stage UploadReport [summary] no_output
        (upload_report_to_s3 env shift_id summary);
  mret (JDict [("status", JStr "complete")]).

Definition process_shift (shift_id : string) : M json :=
  try_except (process_shift_body shift_id)
    (fun e =>
       _ ← log_error shift_id e;
       mret (JDict [("status", JStr "failed");
                    ("error", JStr (str_of_exn env e))])).

(** [background_tasks.add_task(process_shift, shift_id)]. *)
Definition add_task (shift_id : string) : M unit := fun w =>
  (Ok tt, mkWorld (llm_calls w) (db w) (s3_reports w) (error_log w) (trace w)
                  (background_tasks w ++ [shift_id])).

(** POST /analyze-shift *)
Definition analyze_shift (shift_id : string) : M json :=
  _ ← add_task shift_id;
  mret (JDict [("status", JStr "processing"); ("shift_id", JStr shift_id)]).

(** GET /report/{shift_id} *)
Definition get_report (shift_id : string) (w : World) : option json :=
  get_from_database shift_id w.

(** The server runs the oldest scheduled task to its end; the task
    leaves the list when [process_shift] has returned. *)
Definition run_background_task (w : World) : World :=
  match background_tasks w with
  | [] => w
  | shift_id :: rest =>
      let w' := snd (process_shift shift_id w) in
      mkWorld (llm_calls w') (db w') (s3_reports w') (error_log w') (trace w')
              rest
  end.

(** The number of runs of a shift that are scheduled and not finished. *)
Definition runs_in_flight (shift_id : string) (w : World) : nat :=
  length (filter (fun s => s = shift_id) (background_tasks w)).

End Main.
End Main.

(** ** The processing flow of section 4.2 of the design *)

Module Flow.
Section Flow.
Variable env : Collaborators.

(** A name that the function does not bind is looked up among the
    module-level names. *)
Definition lookup_name (name : string) : M json :=
  lift (match globals env !! name with
        | Some v => Ok v
        | None => Raise (NameError name)
        end).

(** One awaitable of [asyncio.gather]: it runs when the gathering task
    is suspended; its failure is kept as its outcome. *)
Definition run_awaitable (c : M json) : M (result json) := fun w =>
  match c w with
  | (r, w') => (Ok r, w')
  end.

Fixpoint run_awaitables (cs : list (M json)) : M (list (result json)) :=
  match cs with
  | [] => mret []
  | c :: rest =>
      r ← run_awaitable c;
      rs ← run_awaitables rest;
      mret (r :: rs)
  end.

(** The values of all outcomes, or the first exception. *)
Fixpoint collect (rs : list (result json)) : result (list json) :=
  match rs with
  | [] => Ok []
  | r :: rest =>
      v ← r;
      vs ← collect rest;
      Ok (v :: vs)
  end.

(** [await asyncio.gather(c1, ..., cn)]: every awaitable runs, in
    order (none of the agents suspends before it ends); then the
    results are returned, or the first exception is raised. *)
Definition gather (cs : list (M json)) : M (list json) :=
  rs ← run_awaitables cs;
  lift (collect rs).

Definition analyze_shift (shift_id : string) : M json :=
  audio_file ← lift (download_from_s3 env shift_id);
  metadata ← lift (get_shift_metadata env shift_id);
  transcript ← lift (transcribe env audio_file);
  (* the arguments of gather, left to right: creating a coroutine runs
     nothing of it *)
  let c0 := run_stage (Agent Fatigue) [] id
              (FatigueAgent_analyze env transcript metadata) in
  let c1 := run_stage (Agent Safety) [] id
              (SafetyAgent_analyze env transcript metadata) in
  fatigue_result ← lookup_name "fatigue_result";
  safety_result ← lookup_name "safety_result";
  let c2 := run_stage (Agent Summarizer) [fatigue_result; safety_result] id
              (SummarizerAgent_analyze env transcript metadata
                 fatigue_result safety_result) in
  results ← gather [c0; c1; c2];
  r0 ← lift (Py.getitem results 0);
  r1 ← lift (Py.getitem results 1);
  r2 ← lift (Py.getitem results 2);
  let final_report := JDict
    [ ("shift_id", JStr shift_id); ("fatigue_analysis", r0);
      ("safety_analysis", r1); ("summary", r2);
      ("generated_at", now env) ] in
  _ ← save_to_database env final_report;
  _ ← upload_report_to_s3 env shift_id final_report;
  mret final_report.

End Flow.
End Flow.
(** ** The upload form of the dashboard (UploadAudio) *)

Module UploadAudio.

Record File : Type := mkFile {
  file_name : string;
  file_type : string;
  file_size : nat
}.

(** [audio.duration] once the metadata is loaded: a number of seconds,
    or +Infinity for a stream without a known end. *)
Inductive duration : Type :=
| Seconds (q : Q)
| Unbounded.

Record UploadFormData : Type := mkFormData {
  shiftId : string;
  controllerId : string;
  facility : string;
  startTime : string;
  endTime : string;
  position : string;
  scheduleType : string;
  trafficCountAvg : option Q        (* a number; [None] is NaN *)
}.

Record State : Type := mkState {
  audioFile : option File;
  errors : gmap string string;
  isSubmitting : bool;
  successMessage : string;
  formData : UploadFormData;
  (* ghost: the submissions that reached the upload *)
  submitted : list (option File * UploadFormData)
}.

(** What the browser provides. *)
Record Browser : Type := mkBrowser {
  (* the duration measured by getAudioDuration; 0 when loading fails *)
  getAudioDuration : File -> duration;
  (* new Date(s).getTime(): milliseconds, or [None] for NaN *)
  Date_getTime : string -> option Z;
  (* (duration / 60).toFixed(1) *)
  minutes_toFixed1 : duration -> string
}.

Definition initialFormData : UploadFormData :=
  mkFormData "" "" "" "" "" "tower" "2-2-1" (Some 8%Q).

Definition validTypes : list string :=
  ["audio/mpeg"; "audio/wav"; "audio/mp4"; "audio/ogg"; "audio/flac"].

(** [validTypes.includes(t)] *)
Definition includes (l : list string) (t : string) : bool :=
  existsb (String.eqb t) l.

Definition maxDurationSeconds : Q := (30 * 60)%Q.

(** [duration > maxDurationSeconds] *)
Definition exceeds (d : duration) (limit : Q) : bool :=
  match d with
  | Seconds q => Py.Qlt_bool limit q
  | Unbounded => true
  end.

(** [end <= start] on numbers: false when either is NaN. *)
Definition js_le (a b : option Z) : bool :=
  match a, b with
  | Some x, Some y => (x <=? y)%Z
  | _, _ => false
  end.

(** [x < 0] on numbers: false for NaN. *)
Definition js_negative (x : option Q) : bool :=
  match x with
  | Some q => Py.Qlt_bool q 0
  | None => false
  end.

(** The white space and the line terminators that [trim] strips, by
    the bytes of their UTF-8 encoding: U+0009 to U+000D and U+0020; *)
Definition space1 (a : ascii) : bool :=
  let a := nat_of_ascii a in
  (Nat.leb 9 a && Nat.leb a 13) || Nat.eqb a 32.

(** U+00A0; *)
Definition space2 (a b : ascii) : bool :=
  Nat.eqb (nat_of_ascii a) 194 && Nat.eqb (nat_of_ascii b) 160.

(** U+1680, U+2000 to U+200A, U+2028, U+2029, U+202F, U+205F, U+3000
    and U+FEFF. *)
Definition space3 (a b c : ascii) : bool :=
  let a := nat_of_ascii a in
  let b := nat_of_ascii b in
  let c := nat_of_ascii c in
  (Nat.eqb a 225 && Nat.eqb b 154 && Nat.eqb c 128)
  || (Nat.eqb a 226 && Nat.eqb b 128
      && ((Nat.leb 128 c && Nat.leb c 138) || Nat.eqb c 168 || Nat.eqb c 169
          || Nat.eqb c 175))
  || (Nat.eqb a 226 && Nat.eqb b 129 && Nat.eqb c 159)
  || (Nat.eqb a 227 && Nat.eqb b 128 && Nat.eqb c 128)
  || (Nat.eqb a 239 && Nat.eqb b 187 && Nat.eqb c 191).

Fixpoint trim_start (s : string) : string :=
  match s with
  | EmptyString => s
  | String a s1 =>
      if space1 a then trim_start s1
      else
        match s1 with
        | EmptyString => s
        | String b s2 =>
            if space2 a b then trim_start s2
            else
              match s2 with
              | EmptyString => s
              | String c s3 => if space3 a b c then trim_start s3 else s
              end
        end
  end.

(** Whether a string is white space from end to end. *)
Definition blank (s : string) : bool :=
  match trim_start s with EmptyString => true | String _ _ => false end.

(** The string without the white space that ends it. *)
Fixpoint trim_end (s : string) : string :=
  match s with
  | EmptyString => EmptyString
  | String c s' => if blank s then EmptyString else String c (trim_end s')
  end.

(** [s.trim()] *)
Definition trim (s : string) : string := trim_end (trim_start s).

(** Truthiness of a string. *)
Definition nonempty (s : string) : bool :=
  match s with EmptyString => false | String _ _ => true end.

(** [if (cond) { newErrors[key] = msg }] *)
Definition set_if (cond : bool) (key msg : string) (newErrors : gmap string string)
    : gmap string string :=
  if cond then <[key := msg]> newErrors else newErrors.

Section Handlers.
Variable browser : Browser.

Definition with_file (st : State) (f : option File) (errs : gmap string string)
    : State :=
  mkState f errs (isSubmitting st) (successMessage st) (formData st)
          (submitted st).

Definition handleAudioChange (selected : option File) (st : State) : State :=
  match selected with
  | None => st
  | Some file =>
      if negb (includes validTypes (file_type file)) then
        with_file st None
          {[ "audioFile" :=
             "Invalid audio format. Please upload MP3, WAV, M4A, OGG, or FLAC." ]}
      else
        let duration := getAudioDuration browser file in
        if exceeds duration maxDurationSeconds then
          with_file st None
            {[ "audioFile" :=
               "Audio file is too long. Maximum duration is 30 minutes ("
               +:+ minutes_toFixed1 browser duration +:+ " minutes provided)." ]}
        else
          with_file st (Some file) (delete "audioFile" (errors st))
  end.

(** The object [newErrors] at the end of [validateForm]. *)
Definition form_errors (st : State) : gmap string string :=
  let form := formData st in
  let e0 : gmap string string := ∅ in
  let e1 := set_if (negb (bool_decide (is_Some (audioFile st))))
              "audioFile" "Please select an audio file" e0 in
  let e2 := set_if (negb (nonempty (trim (shiftId form))))
              "shiftId" "Shift ID is required" e1 in
  let e3 := set_if (negb (nonempty (trim (controllerId form))))
              "controllerId" "Controller ID is required" e2 in
  let e4 := set_if (negb (nonempty (trim (facility form))))
              "facility" "Facility is required" e3 in
  let e5 := set_if (negb (nonempty (startTime form)))
              "startTime" "Start time is required" e4 in
  let e6 := set_if (negb (nonempty (endTime form)))
              "endTime" "End time is required" e5 in
  let e7 :=
    if nonempty (startTime form) && nonempty (endTime form) then
      let start := Date_getTime browser (startTime form) in
      let end_ := Date_getTime browser (endTime form) in
      set_if (js_le end_ start) "endTime" "End time must be after start time" e6
    else e6 in
  let e8 := set_if (negb (nonempty (trim (position form))))
              "position" "Position is required" e7 in
  let e9 := set_if (negb (nonempty (trim (scheduleType form))))
              "scheduleType" "Schedule type is required" e8 in
  set_if (js_negative (trafficCountAvg form))
    "trafficCountAvg" "Traffic count must be non-negative" e9.

(** [validateForm()]: stores the errors and tells whether there is none. *)
Definition validateForm (st : State) : bool * State :=
  let newErrors := form_errors st in
  (bool_decide (size newErrors = 0), with_file st (audioFile st) newErrors).

Definition handleSubmit (st : State) : State :=
  let (valid, st1) := validateForm st in
  if negb valid then st1
  else
    mkState None (errors st1) false
            ("Successfully queued analysis for shift " +:+ shiftId (formData st1))
            initialFormData
            (submitted st1 ++ [(audioFile st1, formData st1)]).

(** [hoursOnDuty = endTime - startTime], in milliseconds. *)
Definition duty_milliseconds (form : UploadFormData) : option Z :=
  match Date_getTime browser (startTime form), Date_getTime browser (endTime form) with
  | Some s, Some e => Some (e - s)%Z
  | _, _ => None
  end.

End Handlers.

End UploadAudio.

(** ** Vocabulary of the statements on the metrics *)

(** The place of a float in the order of the floats: its class (the
    negative infinity, the negative numbers, the zeros, the positive
    numbers, the positive infinity), then its exponent and its mantissa,
    negated for a negative number. *)
Definition float_rank (x : float) : Z * Z * Z :=
  match x with
  | S754_infinity true => (-2, 0, 0)%Z
  | S754_finite true m e => (-1, - e, - Z.pos m)%Z
  | S754_zero _ => (0, 0, 0)%Z
  | S754_finite false m e => (1, e, Z.pos m)%Z
  | S754_infinity false => (2, 0, 0)%Z
  | S754_nan => (3, 0, 0)%Z
  end.

Definition rank_lt (r r' : Z * Z * Z) : Prop :=
  let '(a, b, c) := r in
  let '(a', b', c') := r' in
  (a < a' \/ (a = a' /\ (b < b' \/ (b = b' /\ c < c'))))%Z.

(** What the three aggregates are for a list of latencies: the average
    is the float quotient of their float sum by their number; the
    maximum and the minimum are latencies of the list, and no latency
    compares greater than the maximum, none less than the minimum. *)
Definition aggregates (times : list float) (r : ResponseTimes) : Prop :=
  match times with
  | [] => rt_avg r = Float.zero /\ rt_max r = Float.zero /\ rt_min r = Float.zero
  | _ :: _ =>
      rt_avg r = Float.div (Py.sum times) (Float.of_Z (Z.of_nat (length times)))
      /\ (In (rt_max r) times
          /\ Forall (fun t => Float.ltb (rt_max r) t = false) times)
      /\ (In (rt_min r) times
          /\ Forall (fun t => Float.ltb t (rt_min r) = false) times)
  end.









(** ** Vocabulary of the statements *)

(** The world after one more call of the model backend. *)
Definition called (prompt : string) (w : World) : World :=
  mkWorld (llm_calls w ++ [prompt]) (db w) (s3_reports w) (error_log w)
          (trace w) (background_tasks w).

(** An agent invocation that makes at most one call of the backend: it
    fails before calling, or it calls once and a failure of the call or of
    the extraction of the reply is its outcome. *)
Definition single_attempt (env : Collaborators) (run : M json) : Prop :=
  forall w,
    (exists e, run w = (Raise e, w))
    \/ (exists prompt,
          match backend env (length (llm_calls w)) prompt with
          | Raise e => run w = (Raise e, called prompt w)
          | Ok reply =>
              match _extract_json env reply with
              | Raise e => run w = (Raise e, called prompt w)
              | Ok _ => exists r, run w = (r, called prompt w)
              end
          end).

(** A computation that leaves the stores, the log and the trace as they
    are. *)
Definition keeps_stores {A} (m : M A) : Prop :=
  forall w r w', m w = (r, w') ->
    db w' = db w /\ s3_reports w' = s3_reports w
    /\ error_log w' = error_log w /\ trace w' = trace w
    /\ background_tasks w' = background_tasks w.

(** The metrics block that [FatigueAgent.analyze] attaches. *)
Definition metrics_block (rt : ResponseTimes) (hesitation_count : nat)
    (hours_on_duty : Q) : json :=
  JDict [ ("avg_response_time", JFloat (rt_avg rt));
          ("max_response_time", JFloat (rt_max rt));
          ("hesitation_count", JNum (inject_Z (Z.of_nat hesitation_count)));
          ("hours_on_duty", JNum hours_on_duty) ].

Definition status_failed (env : Collaborators) (e : exn) : json :=
  JDict [("status", JStr "failed"); ("error", JStr (str_of_exn env e))].

Definition stored_report (shift_id : string) (fatigue safety summary : json) : json :=
  JDict [ ("shift_id", JStr shift_id); ("fatigue", fatigue);
          ("safety", safety); ("summary", summary) ].

(** A sequence of requests to POST /analyze-shift. *)
Definition requests (ids : list string) (w : World) : World :=
  fold_left (fun w id => snd (Main.analyze_shift id w)) ids w.

(** ** The shape of a run of [process_shift] *)

Section RunShape.
Variable env : Collaborators.

Definition outcome_event {A} (s : stage) (show : A -> json) (r : result A)
    : event :=
  match r with
  | Ok a => Finished s (show a)
  | Raise e => Failed s e
  end.

(** The events of the stages that precede the Summarizer, when all of
    them succeed. *)
Definition upstream_events (fatigue safety : json) : list event :=
  [ Started Download []; Finished Download JNull;
    Started Metadata []; Finished Metadata JNull;
    Started Transcribe []; Finished Transcribe JNull;
    Started (Agent Fatigue) []; Finished (Agent Fatigue) fatigue;
    Started (Agent Safety) []; Finished (Agent Safety) safety ].

(** How a run of [process_shift] can end. *)
Inductive run_shape (shift_id : string) (w w' : World) (r : result json)
    : list event -> Prop :=
| failed_upstream (done_ : list event) (s : stage) (ins : list json) (e : exn) :
    (forall s' e', ~ In (Failed s' e') done_) ->
    (forall ins', ~ In (Started (Agent Summarizer) ins') done_) ->
    s <> Agent Summarizer -> s <> SaveReport -> s <> UploadReport ->
    db w' = db w -> s3_reports w' = s3_reports w ->
    error_log w' = error_log w ++ [(shift_id, e)] ->
    r = Ok (status_failed env e) ->
    run_shape shift_id w w' r (done_ ++ [Started s ins; Failed s e])
| failed_summarizer (fatigue safety : json) (e : exn) :
    db w' = db w -> s3_reports w' = s3_reports w ->
    error_log w' = error_log w ++ [(shift_id, e)] ->
    r = Ok (status_failed env e) ->
    run_shape shift_id w w' r
      (upstream_events fatigue safety
       ++ [Started (Agent Summarizer) [fatigue; safety];
           Failed (Agent Summarizer) e])
| failed_save (fatigue safety summary : json) (e : exn) :
    db w' = db w -> s3_reports w' = s3_reports w ->
    error_log w' = error_log w ++ [(shift_id, e)] ->
    r = Ok (status_failed env e) ->
    run_shape shift_id w w' r
      (upstream_events fatigue safety
       ++ [Started (Agent Summarizer) [fatigue; safety];
           Finished (Agent Summarizer) summary;
           Started SaveReport [fatigue; safety; summary];
           Failed SaveReport e])
| failed_upload (fatigue safety summary : json) (e : exn) :
    db w' = <[shift_id := stored_report shift_id fatigue safety summary]> (db w) ->
    s3_reports w' = s3_reports w ->
    error_log w' = error_log w ++ [(shift_id, e)] ->
    r = Ok (status_failed env e) ->
    run_shape shift_id w w' r
      (upstream_events fatigue safety
       ++ [Started (Agent Summarizer) [fatigue; safety];
           Finished (Agent Summarizer) summary;
           Started SaveReport [fatigue; safety; summary];
           Finished SaveReport JNull;
           Started UploadReport [summary];
           Failed UploadReport e])
| completed (fatigue safety summary : json) :
    db w' = <[shift_id := stored_report shift_id fatigue safety summary]> (db w) ->
    s3_reports w' = <[shift_id := summary]> (s3_reports w) ->
    error_log w' = error_log w ->
    r = Ok (JDict [("status", JStr "complete")]) ->
    run_shape shift_id w w' r
      (upstream_events fatigue safety
       ++ [Started (Agent Summarizer) [fatigue; safety];
           Finished (Agent Summarizer) summary;
           Started SaveReport [fatigue; safety; summary];
           Finished SaveReport JNull;
           Started UploadReport [summary];
           Finished UploadReport JNull]).
End RunShape.

(** ** A concrete shift, used to run the definitions *)

Definition scenario_transcript : list TranscriptEntry :=
  [ mkEntry 0 "pilot" "Tower, United four two niner ready for departure" None;
    mkEntry 2 "controller" "United four two niner, cleared for takeoff" None;
    mkEntry 10 "pilot" "Tower, Delta eight nine two, ten miles south" None;
    mkEntry 15.2 "controller" "Delta eight... uh... nine two, tower, um, make straight in" None ].

Definition short_transcript : list TranscriptEntry :=
  [ mkEntry 0 "pilot" "Tower, United four two niner ready" None;
    mkEntry 2 "controller" "United four two niner, cleared for takeoff" None;
    mkEntry 10 "pilot" "Cleared for takeoff, United four two niner" None ].

(** The scenario followed by six more transmissions, none of them an
    answer of the controller to a pilot. *)
Definition demo_transcript : list TranscriptEntry :=
  scenario_transcript ++
  [ mkEntry 20 "controller" "Delta eight nine two, report three mile final" None;
    mkEntry 24 "pilot" "Report three mile final, Delta eight nine two" None;
    mkEntry 40 "pilot" "Tower, Delta eight nine two, three mile final" None;
    mkEntry 300 "pilot" "Tower, Cessna one two three, holding short" None;
    mkEntry 310 "pilot" "Tower, Cessna one two three" None;
    mkEntry 320 "pilot" "Tower, do you read" None ].

Definition demo_shift_id : string := "shift_20240115_001".

Definition demo_metadata : gmap string json :=
  <["shift_id" := JStr demo_shift_id]>
  (<["controller_id" := JStr "CTR_123"]>
  (<["facility" := JStr "facility_001"]>
  (<["start_time" := JStr "2024-01-15T06:00:00Z"]>
  (<["end_time" := JStr "2024-01-15T14:00:00Z"]>
  (<["position" := JStr "tower"]>
  (<["schedule_type" := JStr "2-2-1"]>
  (<["traffic_count_avg" := JNum 8]> ∅))))))).

Definition fatigue_reply : json :=
  JDict [ ("fatigue_score", JNum 58); ("severity", JStr "medium");
          ("indicators", JList []); ("requires_attention", JBool true);
          ("summary", JStr "moderate fatigue") ].

Definition safety_reply : json :=
  JDict [ ("safety_score", JNum 15); ("issues_found", JList []);
          ("requires_immediate_review", JBool false);
          ("summary", JStr "no safety violations") ].

Definition summary_reply : json :=
  JDict [ ("executive_summary", JStr "monitor closely");
          ("priority_level", JStr "medium") ].

Definition demo_extract (raw : string) : result json :=
  if String.eqb raw "fatigue reply" then Ok fatigue_reply
  else if String.eqb raw "safety reply" then Ok safety_reply
  else if String.eqb raw "summary reply" then Ok summary_reply
  else Raise (ValueError "no JSON object in the reply").

(** A backend that answers every call. *)
Definition healthy_backend (n : nat) (prompt : string) : result string :=
  match n with
  | 0 => Ok "fatigue reply"
  | 1 => Ok "safety reply"
  | _ => Ok "summary reply"
  end.

(** A backend whose first call times out; a second call would have been
    answered. *)
Definition flaky_backend (n : nat) (prompt : string) : result string :=
  match n with
  | 0 => Raise (External "backend timeout")
  | 1 => Ok "fatigue reply"
  | 2 => Ok "safety reply"
  | _ => Ok "summary reply"
  end.

Definition demo_collaborators (reply : nat -> string -> result string)
    (names : gmap string json) (transcript : list TranscriptEntry)
    : Collaborators :=
  {| Audio := unit;
     download_from_s3 := fun _ => Ok tt;
     get_shift_metadata := fun _ => Ok demo_metadata;
     transcribe := fun _ => Ok transcript;
     backend := reply;
     _extract_json := demo_extract;
     _get_hours_on_duty := fun _ => Ok 8%Q;
     _get_hours := fun _ => Ok 8%Q;
     _format_full_transcript := fun _ => Ok "CONTROLLER: ...";
     prompt_template := fun _ parts => Py.join " | " parts;
     str_of_num := fun _ => "#";
     str_of_float := fun _ => "#";
     format_1f := fun _ => "#.#";
     str_of_json := fun _ => "?";
     str_of_exn := fun _ => "error";
     now := JStr "2024-01-15T14:05:00Z";
     globals := names;
     db_fault := fun _ => None;
     s3_fault := fun _ => None |}.

Definition empty_world : World := mkWorld [] ∅ ∅ [] [] [].

Definition previous_report : json :=
  stored_report demo_shift_id (JStr "old fatigue") (JStr "old safety")
                   (JStr "old summary").

Definition world_with_report : World :=
  mkWorld [] {[ demo_shift_id := previous_report ]} ∅ [] [] [].

(** The result that the Fatigue agent returns on the demo shift. *)
Definition demo_fatigue_result : json :=
  JDict [ ("fatigue_score", JNum 58); ("severity", JStr "medium");
          ("indicators", JList []); ("requires_attention", JBool true);
          ("summary", JStr "moderate fatigue");
          ("metrics",
           JDict [ ("avg_response_time", JFloat (Float.pred 3.6%Q));
                   ("max_response_time", JFloat (Float.pred 5.2%Q));
                   ("hesitation_count", JNum 6);
                   ("hours_on_duty", JNum 8) ]) ].

(** Module-level names left over from somewhere else. *)
Definition stale_result : json :=
  JDict [ ("fatigue_score", JNum 99); ("severity", JStr "critical");
          ("indicators", JList []); ("safety_score", JNum 99);
          ("issues_found", JList []);
          ("requires_immediate_review", JBool true) ].

Definition stale_names : gmap string json :=
  <["fatigue_result" := stale_result]> (<["safety_result" := stale_result]> ∅).

(** ** Vocabulary of the statements on the upload form *)

(** A file that the upload form is meant to take: one of the five audio
    types, and a measured duration of at most 30 minutes. *)
Definition within_limits (browser : UploadAudio.Browser) (file : UploadAudio.File)
    : Prop :=
  In (UploadAudio.file_type file)
     ["audio/mpeg"; "audio/wav"; "audio/mp4"; "audio/ogg"; "audio/flac"]
  /\ exists secs, UploadAudio.getAudioDuration browser file = UploadAudio.Seconds secs
                  /\ (secs <= 1800)%Q.

(** The state with other form data. *)
Definition with_form (st : UploadAudio.State) (form : UploadAudio.UploadFormData)
    : UploadAudio.State :=
  UploadAudio.mkState (UploadAudio.audioFile st) (UploadAudio.errors st)
    (UploadAudio.isSubmitting st) (UploadAudio.successMessage st) form
    (UploadAudio.submitted st).

(** A browser, a file and a form to run the handlers on. *)
Definition demo_browser : UploadAudio.Browser :=
  UploadAudio.mkBrowser
    (fun f => UploadAudio.Seconds (inject_Z (Z.of_nat (UploadAudio.file_size f))))
    (fun s =>
       if String.eqb s "2024-01-15T06:00" then Some 1705298400000%Z
       else if String.eqb s "2024-01-15T14:00" then Some 1705327200000%Z
       else None)
    (fun _ => "?").

Definition demo_file : UploadAudio.File :=
  UploadAudio.mkFile "shift_morning.wav" "audio/wav" 1500.

Definition demo_form : UploadAudio.UploadFormData :=
  UploadAudio.mkFormData "shift_20240115_001" "CTR_123" "facility_001"
    "2024-01-15T06:00" "2024-01-15T14:00" "tower" "2-2-1" (Some 8%Q).

Definition demo_form_reversed : UploadAudio.UploadFormData :=
  UploadAudio.mkFormData "shift_20240115_001" "CTR_123" "facility_001"
    "2024-01-15T14:00" "2024-01-15T06:00" "tower" "2-2-1" (Some 8%Q).

(** A start time with a year of five digits. *)
Definition demo_form_unparsed : UploadAudio.UploadFormData :=
  UploadAudio.mkFormData "shift_20240115_001" "CTR_123" "facility_001"
    "20240-01-15T06:00" "2024-01-15T14:00" "tower" "2-2-1" (Some 8%Q).

Definition demo_state (form : UploadAudio.UploadFormData) : UploadAudio.State :=
  UploadAudio.mkState (Some demo_file) ∅ false "" form [].

(** ** Further vocabulary on transcripts *)

(** The entry with its text in upper case. *)
Definition shouted (e : TranscriptEntry) : TranscriptEntry :=
  mkEntry (timestamp e) (speaker e) (Py.upper (text e)) (confidence e).

(** [speaker == 'controller'] *)
Definition is_controller (e : TranscriptEntry) : bool :=
  String.eqb (speaker e) "controller".

(** ** Further vocabulary on the agents *)

(** The first of [keys] that a metadata dict lacks. *)
Fixpoint first_missing (metadata : gmap string json) (keys : list string)
    : option string :=
  match keys with
  | [] => None
  | k :: rest =>
      match metadata !! k with
      | Some _ => first_missing metadata rest
      | None => Some k
      end
  end.

(** Whether a value is a dict. *)
Definition is_dict (v : json) : bool :=
  match v with JDict _ => true | _ => false end.

(** [env] with another extractor of the reply. *)
Definition with_extractor (env : Collaborators)
    (extract : string -> result json) : Collaborators :=
  {| Audio := Audio env;
     download_from_s3 := download_from_s3 env;
     get_shift_metadata := get_shift_metadata env;
     transcribe := transcribe env;
     backend := backend env;
     _extract_json := extract;
     _get_hours_on_duty := _get_hours_on_duty env;
     _get_hours := _get_hours env;
     _format_full_transcript := _format_full_transcript env;
     prompt_template := prompt_template env;
     str_of_num := str_of_num env;
     str_of_float := str_of_float env;
     format_1f := format_1f env;
     str_of_json := str_of_json env;
     str_of_exn := str_of_exn env;
     now := now env;
     globals := globals env;
     db_fault := db_fault env;
     s3_fault := s3_fault env |}.

(** [env] with failures of the store and of the upload. *)
Definition with_faults (env : Collaborators)
    (store_fault upload_fault : string -> option exn) : Collaborators :=
  {| Audio := Audio env;
     download_from_s3 := download_from_s3 env;
     get_shift_metadata := get_shift_metadata env;
     transcribe := transcribe env;
     backend := backend env;
     _extract_json := _extract_json env;
     _get_hours_on_duty := _get_hours_on_duty env;
     _get_hours := _get_hours env;
     _format_full_transcript := _format_full_transcript env;
     prompt_template := prompt_template env;
     str_of_num := str_of_num env;
     str_of_float := str_of_float env;
     format_1f := format_1f env;
     str_of_json := str_of_json env;
     str_of_exn := str_of_exn env;
     now := now env;
     globals := globals env;
     db_fault := store_fault;
     s3_fault := upload_fault |}.

Definition demo_env : Collaborators :=
  demo_collaborators healthy_backend ∅ demo_transcript.

(** A computation that sends at most [n] prompts to the model backend,
    and exactly [n] when it returns a value. *)
Definition makes_calls {A} (n : nat) (m : M A) : Prop :=
  forall w r w', m w = (r, w') ->
    exists prompts,
      llm_calls w' = llm_calls w ++ prompts
      /\ length prompts <= n
      /\ (is_ok r = true -> length prompts = n).

Definition status_complete : json := JDict [("status", JStr "complete")].

(** ** More of the dashboard *)

From Stdlib Require Import Qround.

(** The audio element of [getAudioDuration]. *)
Module AudioElement.
Import UploadAudio.

(** What setting [audio.src] leads to: [onloadedmetadata], with the
    duration of the audio, or [onerror]. *)
Inductive loaded : Type :=
| LoadedMetadata (d : duration)
| LoadError.

(** The value that the promise of [getAudioDuration] resolves to. *)
Definition getAudioDuration (load : File -> loaded) (file : File) : duration :=
  match load file with
  | LoadedMetadata d => d
  | LoadError => Seconds 0
  end.

(** A browser whose measure of the duration is [getAudioDuration] over
    [load]. *)
Definition browser_of (load : File -> loaded) (browser : Browser) : Browser :=
  mkBrowser (getAudioDuration load) (Date_getTime browser)
            (minutes_toFixed1 browser).

End AudioElement.

(** The page of the shifts (ShiftSelection) *)
Module ShiftSelection.

Record Shift : Type := mkShift {
  shiftId : string;
  controllerId : string;
  facility : string;
  startTime : string;
  endTime : string;
  position : string;
  scheduleType : string;
  trafficCountAvg : option Q;
  analyzed : bool
}.

(** A [Set] of strings, as the list of its elements in insertion
    order. *)
Definition has (set : list string) (x : string) : bool :=
  existsb (String.eqb x) set.

Definition add (set : list string) (x : string) : list string :=
  if has set x then set else set ++ [x].

Definition delete (set : list string) (x : string) : list string :=
  List.filter (fun y => negb (String.eqb x y)) set.

(** [Array.from(new Set(xs))] *)
Definition distinct (xs : list string) : list string :=
  fold_left add xs [].

Definition facilities (shifts : list Shift) : list string :=
  distinct (map facility shifts).

Definition controllers (shifts : list Shift) : list string :=
  distinct (map controllerId shifts).

Definition shown (selectedFacility selectedDate selectedController : string)
    (shift : Shift) : bool :=
  if negb (String.eqb selectedFacility "all")
     && negb (String.eqb (facility shift) selectedFacility) then false
  else if UploadAudio.nonempty selectedDate
          && negb (String.prefix selectedDate (startTime shift)) then false
  else if negb (String.eqb selectedController "all")
          && negb (String.eqb (controllerId shift) selectedController) then false
  else true.

Definition filteredShifts (shifts : list Shift)
    (selectedFacility selectedDate selectedController : string) : list Shift :=
  List.filter (shown selectedFacility selectedDate selectedController) shifts.

Definition toggleShiftSelection (shiftId : string) (selectedShiftIds : list string)
    : list string :=
  if has selectedShiftIds shiftId then delete selectedShiftIds shiftId
  else add selectedShiftIds shiftId.

(** The route that [handleAnalyze] navigates to. *)
Definition handleAnalyze (shiftId : string) : string := "/shift/" +:+ shiftId.

(** The route that [handleBatchAnalyze] navigates to, if it does. *)
Definition handleBatchAnalyze (selectedShiftIds : list string) : option string :=
  if Nat.ltb 0 (length selectedShiftIds) then
    match selectedShiftIds !! 0 with
    | Some firstShiftId => Some ("/shift/" +:+ firstShiftId)
    | None => Some "/shift/undefined"
    end
  else None.

End ShiftSelection.

Definition mockShifts : list ShiftSelection.Shift :=
  [ ShiftSelection.mkShift "shift_20240115_001" "CTR-123" "Tower 001"
      "2024-01-15T06:00:00Z" "2024-01-15T14:00:00Z" "tower" "2-2-1"
      (Some 8%Q) true;
    ShiftSelection.mkShift "shift_20240115_002" "CTR-123" "Tower 001"
      "2024-01-15T14:00:00Z" "2024-01-15T22:00:00Z" "tower" "2-2-1"
      (Some 8%Q) true;
    ShiftSelection.mkShift "shift_20240115_003" "CTR-456" "Tower 001"
      "2024-01-15T22:00:00Z" "2024-01-16T06:00:00Z" "tower" "2-2-1"
      (Some 8%Q) false;
    ShiftSelection.mkShift "shift_20240115_004" "CTR-789" "Tower 001"
      "2024-01-15T06:00:00Z" "2024-01-15T14:00:00Z" "tower" "2-2-1"
      (Some 8%Q) true ].

(** The fatigue timeline of a report (TimelineChart) *)
Module TimelineChart.

Record point : Type := mkPoint {
  hour : nat;
  fatigue : Q
}.

(** [Math.min(100, score + (hour > 6 ? (hour - 6) * 5 : 0))] *)
Definition fatigue_at (score : Q) (hour : nat) : Q :=
  Qmin 100 (score + (if Nat.ltb 6 hour
                     then (inject_Z (Z.of_nat hour) - 6) * 5
                     else 0))%Q.

(** [Array.from({ length: Math.ceil(hours) }, (_, i) => ...)]; the
    label of a point is its hour followed by [:00]. *)
Definition timelineData (score hours : Q) : list point :=
  map (fun i => let hour := i + 1 in mkPoint hour (fatigue_at score hour))
      (seq 0 (Z.to_nat (Qceiling hours))).

End TimelineChart.

(** * Theorems *)

(** * Response latency (FatigueAgent._calculate_response_times) *)

Section ResponseTimes.
Import FatigueMetrics.

Lemma getitem_middle {A} (pre : list A) (x : A) (post : list A) :
  Py.getitem (pre ++ x :: post) (length pre) = Ok x.
Proof.
  unfold Py.getitem. now rewrite list_lookup_middle.
Qed.

Lemma getitem_middle_next {A} (pre : list A) (x y : A) (post : list A) :
  Py.getitem (pre ++ x :: y :: post) (length pre + 1) = Ok y.
Proof.
  replace (pre ++ x :: y :: post) with ((pre ++ [x]) ++ y :: post)
    by (now rewrite <- app_assoc).
  replace (length pre + 1) with (length (pre ++ [x]))
    by (rewrite length_app; reflexivity).
  apply getitem_middle.
Qed.

(** The index loop walks the adjacent pairs: after the entries of [pre],
    the remaining iterations add the latencies of [rest]. *)
Lemma loop_from (rest pre : list TranscriptEntry) (acc : list float) :
  fold_left (response_times_step (pre ++ rest))
            (seq (length pre) (length rest - 1)) (Ok acc)
  = Ok (acc ++ adjacent_latencies rest).
Proof.
  revert pre acc.
  induction rest as [|a rest IH]; intros pre acc.
  - simpl. now rewrite app_nil_r.
  - destruct rest as [|b rest].
    + simpl. now rewrite app_nil_r.
    + replace (length (a :: b :: rest) - 1) with (S (length (b :: rest) - 1))
        by (simpl; lia).
      rewrite <- cons_seq. cbn [fold_left].
      assert (Hstep : response_times_step (pre ++ a :: b :: rest) (Ok acc) (length pre)
                      = Ok (acc ++ (if String.eqb (speaker a) "pilot"
                                       && String.eqb (speaker b) "controller"
                                    then [Float.sub (timestamp b) (timestamp a)] else []))).
      { unfold response_times_step. cbn [mbind result_bind].
        rewrite getitem_middle. cbn [mbind result_bind].
        destruct (String.eqb (speaker a) "pilot"); cbn [andb].
        - rewrite getitem_middle_next. cbn [mbind result_bind].
          destruct (String.eqb (speaker b) "controller").
          + reflexivity.
          + now rewrite app_nil_r.
        - now rewrite app_nil_r. }
      rewrite Hstep.
      replace (pre ++ a :: b :: rest) with ((pre ++ [a]) ++ b :: rest)
        by (now rewrite <- app_assoc).
      replace (S (length pre)) with (length (pre ++ [a]))
        by (rewrite length_app; simpl; lia).
      rewrite IH. f_equal. rewrite <- app_assoc.
      cbn [adjacent_latencies].
      destruct (String.eqb (speaker a) "pilot" && String.eqb (speaker b) "controller");
        reflexivity.
Qed.

Lemma response_deltas_adjacent (transcript : list TranscriptEntry) :
  response_deltas transcript = Ok (adjacent_latencies transcript).
Proof.
  unfold response_deltas.
  exact (loop_from transcript [] []).
Qed.

Lemma Qlt_bool_true (x y : Q) : Py.Qlt_bool x y = true -> (x < y)%Q.
Proof.
  unfold Py.Qlt_bool. intros H. apply negb_true_iff in H.
  apply Qnot_le_lt. intros Hle. apply Qle_bool_iff in Hle. congruence.
Qed.

Lemma Qlt_bool_false (x y : Q) : Py.Qlt_bool x y = false -> (y <= x)%Q.
Proof.
  unfold Py.Qlt_bool. intros H. apply negb_false_iff in H.
  now apply Qle_bool_iff.
Qed.

(** The order of the floats, by class, exponent and mantissa. *)
Lemma ltb_rank (x y : float) :
  Float.ltb x y = true <->
  Float.is_nan x = false /\ Float.is_nan y = false
  /\ rank_lt (float_rank x) (float_rank y).
Proof.
  unfold Float.ltb, SFltb, rank_lt.
  destruct x as [sx|sx| |sx mx ex], y as [sy|sy| |sy my ey];
    try destruct sx; try destruct sy; cbn;
    try (split; [discriminate | intros (? & ? & ?); (discriminate || lia)]);
    try (split; [intros _; repeat split; lia | reflexivity]).
  - destruct (Z.compare_spec ex ey) as [->|Hlt|Hgt].
    + rewrite Pos.compare_cont_spec. cbn [Pos.switch_Eq].
      destruct (Pos.compare_spec mx my) as [->|Hm|Hm]; cbn;
        (split; [discriminate || (intros _; repeat split; lia)
                | (intros (_ & _ & ?); lia) || reflexivity]).
    + split; [discriminate | intros (_ & _ & ?); lia].
    + split; [intros _; repeat split; lia | reflexivity].
  - destruct (Z.compare_spec ex ey) as [->|Hlt|Hgt].
    + rewrite Pos.compare_cont_spec. cbn [Pos.switch_Eq].
      destruct (Pos.compare_spec mx my) as [->|Hm|Hm]; cbn;
        (split; [discriminate || (intros _; repeat split; lia)
                | (intros (_ & _ & ?); lia) || reflexivity]).
    + split; [intros _; repeat split; lia | reflexivity].
    + split; [discriminate | intros (_ & _ & ?); lia].
Qed.

Lemma ltb_irrefl (x : float) : Float.ltb x x = false.
Proof.
  destruct (Float.ltb x x) eqn:H; [|reflexivity].
  apply ltb_rank in H as (_ & _ & H). unfold rank_lt in H.
  destruct (float_rank x) as [[a b] c]. lia.
Qed.

Lemma ltb_trans (x y z : float) :
  Float.ltb x y = true -> Float.ltb y z = true -> Float.ltb x z = true.
Proof.
  intros Hxy Hyz.
  apply ltb_rank in Hxy as (Hx & _ & Hxy).
  apply ltb_rank in Hyz as (_ & Hz & Hyz).
  apply ltb_rank. split; [exact Hx|]. split; [exact Hz|].
  unfold rank_lt in *.
  destruct (float_rank x) as [[a b] c], (float_rank y) as [[a' b'] c'],
           (float_rank z) as [[a2 b2] c2]. lia.
Qed.

(** When the kept item is replaced, what did not compare greater than
    it does not compare greater than the new one. *)
Lemma not_above_replaced (m y t : float) :
  Float.ltb m y = true -> Float.ltb m t = false -> Float.ltb y t = false.
Proof.
  intros Hmy Hmt. destruct (Float.ltb y t) eqn:Hyt; [|reflexivity].
  rewrite (ltb_trans m y t Hmy Hyt) in Hmt. discriminate.
Qed.

Lemma not_below_replaced (m y t : float) :
  Float.ltb y m = true -> Float.ltb t m = false -> Float.ltb t y = false.
Proof.
  intros Hym Htm. destruct (Float.ltb t y) eqn:Hty; [|reflexivity].
  rewrite (ltb_trans t y m Hty Hym) in Htm. discriminate.
Qed.

(** The running maximum is an item seen so far, and none of them
    compares greater. *)
Lemma running_max (xs : list float) (x : float) :
  let m := fold_left (fun m y => if Float.ltb m y then y else m) xs x in
  In m (x :: xs) /\ Forall (fun t => Float.ltb m t = false) (x :: xs).
Proof.
  cbv zeta.
  assert (H : forall seen,
             In x seen -> Forall (fun t => Float.ltb x t = false) seen ->
             let m := fold_left (fun m y => if Float.ltb m y then y else m) xs x in
             In m (seen ++ xs)
             /\ Forall (fun t => Float.ltb m t = false) (seen ++ xs)).
  { revert x. induction xs as [|y xs IH]; intros x seen Hin Hall; cbn [fold_left].
    - rewrite app_nil_r. auto.
    - replace (seen ++ y :: xs) with ((seen ++ [y]) ++ xs)
        by (now rewrite <- app_assoc).
      destruct (Float.ltb x y) eqn:Hc.
      + apply IH.
        * apply in_app_iff. right. now left.
        * apply Forall_app. split.
          -- eapply Forall_impl; [exact Hall|].
             intros t Ht. now apply (not_above_replaced x y t).
          -- constructor; [apply ltb_irrefl | constructor].
      + apply IH.
        * apply in_app_iff. now left.
        * apply Forall_app. split; [exact Hall|].
          constructor; [exact Hc | constructor]. }
  apply (H [x]); [now left|].
  constructor; [apply ltb_irrefl | constructor].
Qed.

Lemma running_min (xs : list float) (x : float) :
  let m := fold_left (fun m y => if Float.ltb y m then y else m) xs x in
  In m (x :: xs) /\ Forall (fun t => Float.ltb t m = false) (x :: xs).
Proof.
  cbv zeta.
  assert (H : forall seen,
             In x seen -> Forall (fun t => Float.ltb t x = false) seen ->
             let m := fold_left (fun m y => if Float.ltb y m then y else m) xs x in
             In m (seen ++ xs)
             /\ Forall (fun t => Float.ltb t m = false) (seen ++ xs)).
  { revert x. induction xs as [|y xs IH]; intros x seen Hin Hall; cbn [fold_left].
    - rewrite app_nil_r. auto.
    - replace (seen ++ y :: xs) with ((seen ++ [y]) ++ xs)
        by (now rewrite <- app_assoc).
      destruct (Float.ltb y x) eqn:Hc.
      + apply IH.
        * apply in_app_iff. right. now left.
        * apply Forall_app. split.
          -- eapply Forall_impl; [exact Hall|].
             intros t Ht. now apply (not_below_replaced x y t).
          -- constructor; [apply ltb_irrefl | constructor].
      + apply IH.
        * apply in_app_iff. now left.
        * apply Forall_app. split; [exact Hall|].
          constructor; [exact Hc | constructor]. }
  apply (H [x]); [now left|].
  constructor; [apply ltb_irrefl | constructor].
Qed.

Lemma response_times_aggregates (transcript : list TranscriptEntry) :
  exists r, _calculate_response_times transcript = Ok r
            /\ aggregates (adjacent_latencies transcript) r.
Proof.
  unfold _calculate_response_times.
  rewrite response_deltas_adjacent. cbn [mbind result_bind].
  destruct (adjacent_latencies transcript) as [|t ts] eqn:Htimes.
  - cbn. eexists. split; [reflexivity|]. cbn. auto.
  - cbn [Py.truthy Py.truediv length Py.max Py.min mbind result_bind].
    eexists. split; [reflexivity|].
    cbn [aggregates rt_avg rt_max rt_min]. split; [reflexivity|].
    split; [apply running_max | apply running_min].
Qed.

(** C4. For every transcript, [_calculate_response_times] returns
    without raising; its metrics are computed over the latencies
    [entry[i+1].timestamp - entry[i].timestamp], in floating point, of
    exactly the adjacent pairs with a pilot at [i] and a controller at
    [i+1]: the average is the float quotient of their float sum by
    their number, the maximum and the minimum are latencies of which
    none compares greater, respectively less; when there is no such
    pair all three are 0. On the scenario with entries at 0 (pilot), 2
    (controller), 10 (pilot) and 15.2 (controller) the result is min
    2.0, max 5.199999999999999 and avg 3.5999999999999996: the floats
    next below 5.2 and 3.6. *)
Theorem response_latency_metrics :
  (forall transcript : list TranscriptEntry,
     exists r, _calculate_response_times transcript = Ok r
               /\ aggregates (adjacent_latencies transcript) r)
  /\ (exists r, _calculate_response_times scenario_transcript = Ok r
                /\ rt_avg r = Float.pred 3.6%Q
                /\ rt_max r = Float.pred 5.2%Q
                /\ rt_min r = Float.of_Q 2.0).
Proof.
  split; [exact response_times_aggregates|].
  eexists. split; [reflexivity|].
  cbn [rt_avg rt_max rt_min]. repeat split; vm_compute; reflexivity.
Qed.

(** Counterexample to C4 as the specification words it: on the
    scenario the maximum is not 5.2 and the average is not 3.6; the
    comparisons [max == 5.2] and [avg == 3.6] are false, and both
    results are below those numbers. *)
Lemma scenario_latency_is_rounded :
  exists r, _calculate_response_times scenario_transcript = Ok r
            /\ Float.eqb (rt_max r) 5.2%Q = false
            /\ Float.eqb (rt_avg r) 3.6%Q = false
            /\ Float.ltb (rt_max r) 5.2%Q = true
            /\ Float.ltb (rt_avg r) 3.6%Q = true
            /\ Float.sub 15.2%Q 10%Q <> Float.of_Q 5.2.
Proof.
  eexists. split; [reflexivity|].
  cbn [rt_avg rt_max rt_min]. repeat split; try (vm_compute; reflexivity).
  vm_compute. discriminate.
Qed.

End ResponseTimes.

(** * Hesitation count (FatigueAgent._count_hesitations) *)

Section Occurrences.
Variable sub : string.

Local Abbreviation D := (Py.count_from sub).
Local Abbreviation n := (String.length sub).














End Occurrences.


Section Seam.





End Seam.

Section Hesitations.
Import FatigueText.






Lemma hesitation_total_cons (e : TranscriptEntry) (tr : list TranscriptEntry) :
  hesitation_total (e :: tr)
  = (if String.eqb (speaker e) "controller"
     then filler_occurrences (Py.lower (text e)) else 0)
    + hesitation_total tr.
Proof.
  unfold hesitation_total, controller_utterances.
  rewrite filter_cons.
  destruct (String.eqb_spec (speaker e) "controller") as [Heq|Hne].
  - rewrite decide_True by exact Heq. reflexivity.
  - rewrite decide_False by exact Hne. reflexivity.
Qed.

Lemma fold_hesitations (tr : list TranscriptEntry) (acc : nat) :
  fold_left hesitations_step tr acc = acc + hesitation_total tr.
Proof.
  revert acc. induction tr as [|e tr IH]; intros acc.
  - unfold hesitation_total. simpl. lia.
  - cbn [fold_left]. rewrite IH, hesitation_total_cons.
    unfold hesitations_step.
    destruct (String.eqb (speaker e) "controller"); lia.
Qed.

Lemma count_hesitations_total (tr : list TranscriptEntry) :
  _count_hesitations tr = hesitation_total tr.
Proof. unfold _count_hesitations. now rewrite fold_hesitations. Qed.

Lemma hesitation_total_app (tr1 tr2 : list TranscriptEntry) :
  hesitation_total (tr1 ++ tr2) = hesitation_total tr1 + hesitation_total tr2.
Proof.
  induction tr1 as [|e tr1 IH]; [reflexivity|].
  rewrite <- app_comm_cons, !hesitation_total_cons, IH. lia.
Qed.




End Hesitations.

(** * Transcript samples (FatigueAgent._format_samples) *)

Section Samples.
Import FatigueText.
Variable str_of_num : float -> string.

Lemma stride_from_lookup {A} (k : nat) (l : list A) :
  0 < k -> forall skip i, Py.stride_from k skip l !! i = l !! (skip + i * k).
Proof.
  intros Hk. induction l as [|x l IH]; intros skip i; [reflexivity|].
  destruct skip as [|j]; cbn [Py.stride_from].
  - destruct i as [|i]; [reflexivity|].
    cbn [lookup list_lookup]. rewrite IH.
    replace (0 + S i * k) with (S (k - 1 + i * k)) by lia. reflexivity.
  - rewrite IH. reflexivity.
Qed.

(** A transcript shorter than the sample size has stride 0, and the
    slice raises. *)
Lemma format_samples_short (transcript : list TranscriptEntry) :
  length transcript < 10 ->
  _format_samples str_of_num transcript 10
  = Raise (ValueError "slice step cannot be zero").
Proof.
  intros Hlen. unfold _format_samples, Py.floordiv.
  cbn [Z.eqb mbind result_bind].
  rewrite Z.div_small by lia. reflexivity.
Qed.

(** From 10 entries on, the samples are the 10 entries at the multiples
    of the stride [len // 10]. *)
Lemma selected_samples_long (transcript : list TranscriptEntry) :
  10 <= length transcript ->
  exists samples,
    selected_samples transcript 10 = Ok samples
    /\ length samples = 10
    /\ forall i, i < 10 ->
         samples !! i = transcript !! (i * (length transcript / 10)).
Proof.
  intros Hlen. unfold selected_samples, Py.floordiv.
  cbn [Z.eqb mbind result_bind].
  set (k := length transcript / 10).
  assert (Hk : 0 < k).
  { apply Nat.div_str_pos. lia. }
  assert (Hkz : (Z.of_nat (length transcript) / 10)%Z = Z.of_nat k).
  { unfold k. now rewrite Nat2Z.inj_div. }
  rewrite Hkz. unfold Py.slice_step.
  destruct (Z.eqb_spec (Z.of_nat k) 0) as [H0|_]; [lia|].
  destruct (Z.ltb_spec 0 (Z.of_nat k)) as [_|H0]; [|lia].
  cbn [mbind result_bind]. rewrite Nat2Z.id.
  unfold Py.slice_stop.
  change (0 <=? 10)%Z with true. change (Z.to_nat 10) with 10. cbn iota.
  eexists. split; [reflexivity|].
  assert (Hk10 : k * 10 <= length transcript).
  { unfold k. rewrite Nat.mul_comm. apply Nat.Div0.mul_div_le. }
  assert (Hlong : 10 <= length (Py.stride_from k 0 transcript)).
  { destruct (Nat.le_gt_cases 10 (length (Py.stride_from k 0 transcript)))
      as [H|H]; [exact H|].
    assert (Hnone : Py.stride_from k 0 transcript !! 9 = None)
      by (apply lookup_ge_None; lia).
    rewrite stride_from_lookup in Hnone by exact Hk.
    apply lookup_ge_None in Hnone. lia. }
  split.
  - rewrite length_firstn. lia.
  - intros i Hi.
    change (firstn 10 (Py.stride_from k 0 transcript))
      with (take 10 (Py.stride_from k 0 transcript)).
    rewrite lookup_take_lt by exact Hi.
    now rewrite stride_from_lookup.
Qed.

Lemma format_samples_long (transcript : list TranscriptEntry) :
  10 <= length transcript ->
  is_ok (_format_samples str_of_num transcript 10) = true.
Proof.
  intros Hlen. unfold _format_samples, Py.floordiv.
  cbn [Z.eqb mbind result_bind].
  assert (Hk : (0 < Z.of_nat (length transcript) / 10)%Z)
    by (apply Z.div_str_pos; lia).
  unfold Py.slice_step.
  destruct (Z.eqb_spec (Z.of_nat (length transcript) / 10) 0) as [H0|_]; [lia|].
  destruct (Z.ltb_spec 0 (Z.of_nat (length transcript) / 10)) as [_|H0]; [|lia].
  reflexivity.
Qed.

(** C7. The sampling is not total: [_format_samples] with sample size
    10 returns exactly for the transcripts of at least 10 entries; for
    a shorter one, such as the transcript of three entries, the stride
    [len // 10] is 0 and the slice raises ValueError. *)
Theorem format_samples_faults_on_short_transcript :
  (forall transcript : list TranscriptEntry,
     is_ok (_format_samples str_of_num transcript 10)
     = Nat.leb 10 (length transcript))
  /\ _format_samples str_of_num short_transcript 10
     = Raise (ValueError "slice step cannot be zero").
Proof.
  split; [|reflexivity].
  intros transcript. destruct (Nat.leb_spec 10 (length transcript)) as [Hge|Hlt].
  - now apply format_samples_long.
  - now rewrite format_samples_short.
Qed.

End Samples.

(** * The agents *)

Section AgentFacts.
Variable env : Collaborators.

Lemma bind_lift {A B} (r : result A) (k : A -> M B) (w : World) :
  (lift r ≫= k) w = match r with Ok a => k a w | Raise e => (Raise e, w) end.
Proof. destruct r; reflexivity. Qed.

Lemma single_attempt_lift {A} (r : result A) (k : A -> M json) :
  (forall a, r = Ok a -> single_attempt env (k a)) ->
  single_attempt env (lift r ≫= k).
Proof.
  intros Hk w. rewrite bind_lift. destruct r as [a|e].
  - exact (Hk a eq_refl w).
  - left. now exists e.
Qed.

Lemma single_attempt_call (prompt : string) :
  single_attempt env
    (response ← client_create env prompt; lift (_extract_json env response)).
Proof.
  intros w. right. exists prompt.
  unfold mbind, M_bind, client_create, lift, called.
  destruct (backend env (length (llm_calls w)) prompt) as [reply|e];
    [|reflexivity].
  destruct (_extract_json env reply) as [v|e]; [|reflexivity].
  now eexists.
Qed.

Lemma single_attempt_call_then (prompt : string) (post : json -> result json) :
  single_attempt env
    (response ← client_create env prompt;
     result ← lift (_extract_json env response);
     result ← lift (post result);
     mret result).
Proof.
  intros w. right. exists prompt.
  unfold mbind, M_bind, client_create, lift, called, mret, M_ret.
  destruct (backend env (length (llm_calls w)) prompt) as [reply|e];
    [|reflexivity].
  destruct (_extract_json env reply) as [v|e]; [|reflexivity].
  destruct (post v); now eexists.
Qed.

Lemma FatigueAgent_single_attempt transcript metadata :
  single_attempt env (FatigueAgent_analyze env transcript metadata).
Proof.
  unfold FatigueAgent_analyze.
  repeat (apply single_attempt_lift; intros ? _; cbv zeta).
  apply single_attempt_call_then.
Qed.

Lemma SafetyAgent_single_attempt transcript metadata :
  single_attempt env (SafetyAgent_analyze env transcript metadata).
Proof.
  unfold SafetyAgent_analyze.
  repeat (apply single_attempt_lift; intros ? _; cbv zeta).
  apply single_attempt_call.
Qed.

Lemma SummarizerAgent_single_attempt transcript metadata fatigue safety :
  single_attempt env
    (SummarizerAgent_analyze env transcript metadata fatigue safety).
Proof.
  unfold SummarizerAgent_analyze.
  repeat (apply single_attempt_lift; intros ? _; cbv zeta).
  apply single_attempt_call.
Qed.

Lemma single_attempt_keeps_stores (run : M json) :
  single_attempt env run -> keeps_stores run.
Proof.
  intros Hrun w r w' Hw.
  destruct (Hrun w) as [[e He]|[prompt Hp]].
  - rewrite He in Hw. injection Hw as _ <-. auto.
  - assert (Hw' : w' = called prompt w).
    { destruct (backend env (length (llm_calls w)) prompt) as [reply|e].
      - destruct (_extract_json env reply) as [v|e].
        + destruct Hp as [r' Hr']. congruence.
        + congruence.
      - congruence. }
    subst w'. unfold called. cbn. auto.
Qed.

Lemma lift_keeps_stores {A} (r : result A) : keeps_stores (lift r).
Proof. intros w r' w' H. injection H as _ <-. auto. Qed.

End AgentFacts.


Section FatigueResult.
Import FatigueMetrics FatigueText.

Lemma assoc_get_set (d : list (string * json)) (k : string) (v : json) :
  Py.assoc_get (Py.assoc_set d k v) k = Some v.
Proof.
  induction d as [|[k' v'] d IH]; cbn [Py.assoc_set Py.assoc_get].
  - now rewrite String.eqb_refl.
  - destruct (String.eqb k' k) eqn:Hk; cbn [Py.assoc_get].
    + now rewrite String.eqb_refl.
    + now rewrite Hk.
Qed.

Lemma setitem_ok (obj : json) (k : string) (v r : json) :
  Py.setitem obj k v = Ok r ->
  exists d, obj = JDict d /\ r = JDict (Py.assoc_set d k v).
Proof.
  destruct obj; try discriminate. intros H. injection H as <-. eauto.
Qed.

(** C6. Every agent invocation makes at most one call of the model
    backend: it either fails before the call, or calls once, and then a
    failure of that call or of the extraction of its reply is, with no
    retry and no clarifying instruction, the outcome of the
    invocation. *)
Theorem agents_call_backend_once (env : Collaborators)
    (transcript : list TranscriptEntry) (metadata : gmap string json)
    (fatigue_result safety_result : json) :
  single_attempt env (FatigueAgent_analyze env transcript metadata)
  /\ single_attempt env (SafetyAgent_analyze env transcript metadata)
  /\ single_attempt env
       (SummarizerAgent_analyze env transcript metadata
          fatigue_result safety_result).
Proof.
  split; [apply FatigueAgent_single_attempt|].
  split; [apply SafetyAgent_single_attempt|].
  apply SummarizerAgent_single_attempt.
Qed.

(** Counterexample to C6 as the specification words it: with a backend
    whose first call times out and whose second call would be
    answered, the Fatigue invocation ends in the timeout after that
    single call, and the run of the shift ends as failed. *)
Lemma single_timeout_is_terminal :
  let env := demo_collaborators flaky_backend ∅ demo_transcript in
  let '(r, w1) := FatigueAgent_analyze env demo_transcript demo_metadata
                    empty_world in
  r = Raise (External "backend timeout")
  /\ length (llm_calls w1) = 1
  /\ match llm_calls w1 with
     | [prompt] => backend env 1 prompt = Ok "fatigue reply"
     | _ => False
     end
  /\ fst (Main.process_shift env demo_shift_id empty_world)
     = Ok (status_failed env (External "backend timeout"))
  /\ length (llm_calls (snd (Main.process_shift env demo_shift_id empty_world)))
     = 1.
Proof. vm_compute. repeat split. Qed.

Ltac lift_step H :=
  rewrite bind_lift in H;
  match type of H with
  | match ?r with Ok _ => _ | Raise _ => _ end = _ =>
      let E := fresh "E" in destruct r eqn:E; [|discriminate]
  end.

(** C8. Every result that [FatigueAgent.analyze] returns is the dict
    extracted from the reply of the model with, attached after the
    call and replacing whatever the model put there, the metrics block
    [avg_response_time], [max_response_time], [hesitation_count],
    [hours_on_duty] computed from the transcript and the metadata. *)
Theorem computed_metrics_attached (env : Collaborators)
    (transcript : list TranscriptEntry) (metadata : gmap string json)
    (w w' : World) (r : json) :
  FatigueAgent_analyze env transcript metadata w = (Ok r, w') ->
  exists rt hours prompt reply d,
    _calculate_response_times transcript = Ok rt
    /\ _get_hours_on_duty env metadata = Ok hours
    /\ w' = called prompt w
    /\ backend env (length (llm_calls w)) prompt = Ok reply
    /\ _extract_json env reply = Ok (JDict d)
    /\ r = JDict (Py.assoc_set d "metrics"
                    (metrics_block rt (_count_hesitations transcript) hours))
    /\ Py.subscript r "metrics"
       = Ok (metrics_block rt (_count_hesitations transcript) hours).
Proof.
  intros H. unfold FatigueAgent_analyze in H.
  do 6 (lift_step H; cbv zeta in H).
  unfold mbind at 1, M_bind at 1, client_create in H.
  match type of H with
  | context [backend env ?n ?p] =>
      destruct (backend env n p) as [reply|] eqn:Hreply; [|discriminate]
  end.
  lift_step H. lift_step H.
  injection H as <- <-.
  match goal with
  | Hset : Py.setitem _ _ _ = Ok _ |- _ =>
      apply setitem_ok in Hset; destruct Hset as (d & -> & ->)
  end.
  do 5 eexists. repeat split; try eassumption; try reflexivity.
  cbn [Py.subscript]. now rewrite assoc_get_set.
Qed.

Lemma computed_metrics_attached_witness :
  exists r rt,
    fst (FatigueAgent_analyze
           (demo_collaborators healthy_backend ∅ demo_transcript)
           demo_transcript demo_metadata empty_world) = Ok r
    /\ _calculate_response_times demo_transcript = Ok rt
    /\ Py.subscript r "metrics"
       = Ok (metrics_block rt (_count_hesitations demo_transcript) 8).
Proof.
  destruct (FatigueAgent_analyze
              (demo_collaborators healthy_backend ∅ demo_transcript)
              demo_transcript demo_metadata empty_world)
    as [[r|e] w'] eqn:H.
  - destruct (computed_metrics_attached _ _ _ _ _ _ H)
      as (rt & hours & prompt & reply & d & Hrt & Hh & _ & _ & _ & _ & Hm).
    cbn in Hh. injection Hh as <-.
    exists r, rt. split; [reflexivity|]. split; assumption.
  - exfalso. vm_compute in H. discriminate.
Defined.

(** Counterexample to C8 as the specification words it: the minimum
    response time is computed but is not among the metrics attached
    to the result. *)
Lemma min_response_time_not_attached :
  exists r w' rt m,
    FatigueAgent_analyze (demo_collaborators healthy_backend ∅ demo_transcript)
      demo_transcript demo_metadata empty_world = (Ok r, w')
    /\ _calculate_response_times demo_transcript = Ok rt
    /\ Py.subscript r "metrics" = Ok (JDict m)
    /\ map fst m = [ "avg_response_time"; "max_response_time";
                     "hesitation_count"; "hours_on_duty" ]
    /\ Forall (fun kv => snd kv <> JFloat (rt_min rt)) m.
Proof.
  do 4 eexists. split; [vm_compute; reflexivity|].
  split; [vm_compute; reflexivity|].
  split; [vm_compute; reflexivity|].
  split; [reflexivity|].
  repeat constructor; cbn; discriminate.
Qed.

End FatigueResult.

(** * The pipeline *)

Section Pipeline.
Variable env : Collaborators.

Lemma run_stage_keeps {A} (s : stage) (ins : list json) (show : A -> json)
    (body : M A) (w w' : World) (r : result A) :
  keeps_stores body ->
  run_stage s ins show body w = (r, w') ->
  db w' = db w /\ s3_reports w' = s3_reports w
  /\ error_log w' = error_log w
  /\ trace w' = trace w ++ [Started s ins; outcome_event s show r].
Proof.
  intros Hkeep H. unfold run_stage in H.
  destruct (body (snd (emit (Started s ins) w))) as [[a|e] w1] eqn:Hb;
    apply Hkeep in Hb; cbn in Hb; destruct Hb as (Hd & Hs & He & Ht & _);
    injection H as <- <-; cbn; rewrite Hd, Hs, He, Ht, <- app_assoc; auto.
Qed.

Lemma run_stage_save (ins : list json) (shift_id : string)
    (fatigue safety summary : json) (w w' : World) (r : result unit) :
  run_stage SaveReport ins Main.no_output
    (save_to_database env (stored_report shift_id fatigue safety summary)) w
  = (r, w') ->
  s3_reports w' = s3_reports w /\ error_log w' = error_log w
  /\ trace w' = trace w ++ [Started SaveReport ins;
                            outcome_event SaveReport Main.no_output r]
  /\ db w' = match r with
             | Ok _ => <[shift_id := stored_report shift_id fatigue safety summary]> (db w)
             | Raise _ => db w
             end.
Proof.
  unfold run_stage, save_to_database, stored_report.
  cbn [Py.subscript Py.assoc_get String.eqb Ascii.eqb Bool.eqb].
  destruct (db_fault env shift_id); intros H; injection H as <- <-;
    cbn; rewrite <- app_assoc; auto.
Qed.

Lemma run_stage_upload (ins : list json) (shift_id : string) (doc : json)
    (w w' : World) (r : result unit) :
  run_stage UploadReport ins Main.no_output
    (upload_report_to_s3 env shift_id doc) w = (r, w') ->
  db w' = db w /\ error_log w' = error_log w
  /\ trace w' = trace w ++ [Started UploadReport ins;
                            outcome_event UploadReport Main.no_output r]
  /\ s3_reports w' = match r with
                     | Ok _ => <[shift_id := doc]> (s3_reports w)
                     | Raise _ => s3_reports w
                     end.
Proof.
  unfold run_stage, upload_report_to_s3.
  destruct (s3_fault env shift_id); intros H; injection H as <- <-;
    cbn; rewrite <- app_assoc; auto.
Qed.

End Pipeline.


Section PipelineShape.
Variable env : Collaborators.

Ltac stage_in H :=
  match type of H with
  | context [run_stage ?s ?ins ?show ?body ?w] =>
      let Hs := fresh "Hstage" in
      destruct (run_stage s ins show body w) as [[?|?] ?] eqn:Hs;
      cbn beta iota in H
  end.

Ltac kept_lift Hs :=
  apply run_stage_keeps in Hs; [|apply lift_keeps_stores];
  destruct Hs as (? & ? & ? & ?).

Ltac kept_agent Hs lem :=
  apply run_stage_keeps in Hs;
  [|apply (single_attempt_keeps_stores env); apply lem];
  destruct Hs as (? & ? & ? & ?).

Ltac chain :=
  repeat match goal with
         | Hq : trace ?x = _ |- context [trace ?x] => rewrite Hq
         | Hq : db ?x = _ |- context [db ?x] => rewrite Hq
         | Hq : s3_reports ?x = _ |- context [s3_reports ?x] => rewrite Hq
         | Hq : error_log ?x = _ |- context [error_log ?x] => rewrite Hq
         end.

Ltac handler_in H :=
  unfold log_error, mret, M_ret in H; cbn in H; injection H as <- <-;
  cbn [trace db s3_reports error_log]; chain;
  rewrite <- ?app_assoc; cbn [app outcome_event id Main.no_output];
  eexists; split; [reflexivity|].

Ltac no_event := intros ? ? Hin; cbn in Hin; intuition discriminate.
Ltac no_start := intros ? Hin; cbn in Hin; intuition discriminate.

Ltac upstream done :=
  apply (failed_upstream env _ _ _ _ done);
  [ no_event | no_start | discriminate | discriminate | discriminate
  | cbn; chain; reflexivity | cbn; chain; reflexivity
  | cbn; chain; reflexivity | reflexivity ].

(** The trace and the stores at the end of every run of
    [process_shift]. *)
Lemma process_shift_shape (shift_id : string) (w w' : World) (r : result json) :
  Main.process_shift env shift_id w = (r, w') ->
  exists evs, trace w' = trace w ++ evs /\ run_shape env shift_id w w' r evs.
Proof.
  intros H.
  unfold Main.process_shift, try_except, Main.process_shift_body in H.
  unfold mbind, M_bind in H.
  stage_in H; kept_lift Hstage;
    [|handler_in H; upstream (@nil event)].
  stage_in H; kept_lift Hstage;
    [|handler_in H;
      upstream [Started Download []; Finished Download JNull]].
  stage_in H; kept_lift Hstage;
    [|handler_in H;
      upstream [Started Download []; Finished Download JNull;
                Started Metadata []; Finished Metadata JNull]].
  stage_in H; kept_agent Hstage FatigueAgent_single_attempt;
    [|handler_in H;
      upstream [Started Download []; Finished Download JNull;
                Started Metadata []; Finished Metadata JNull;
                Started Transcribe []; Finished Transcribe JNull]].
  stage_in H; kept_agent Hstage SafetyAgent_single_attempt;
    [|handler_in H;
      upstream [Started Download []; Finished Download JNull;
                Started Metadata []; Finished Metadata JNull;
                Started Transcribe []; Finished Transcribe JNull;
                Started (Agent Fatigue) []; Finished (Agent Fatigue) a2]].
  stage_in H; kept_agent Hstage SummarizerAgent_single_attempt;
    [|handler_in H; apply failed_summarizer;
      try reflexivity; cbn; chain; reflexivity].
  stage_in H;
    apply (run_stage_save env _ shift_id a2 a3 a4) in Hstage;
    destruct Hstage as (? & ? & ? & ?);
    [|handler_in H; apply failed_save;
      try reflexivity; cbn; chain; reflexivity].
  stage_in H;
    apply run_stage_upload in Hstage;
    destruct Hstage as (? & ? & ? & ?);
    [|handler_in H; apply failed_upload;
      try reflexivity; cbn; chain; reflexivity].
  unfold mret, M_ret in H. injection H as <- <-.
  chain. rewrite <- ?app_assoc. cbn [app outcome_event id Main.no_output].
  eexists; split; [reflexivity|].
  apply completed; try reflexivity; chain; reflexivity.
Qed.
End PipelineShape.


Section FlowFacts.
Variable env : Collaborators.

Lemma save_keeps_trace (report : json) (w w' : World) (r : result unit) :
  save_to_database env report w = (r, w') -> trace w' = trace w.
Proof.
  unfold save_to_database.
  destruct (Py.subscript report "shift_id") as [[| | | |sid| |]|];
    try (intros H; injection H as _ <-; reflexivity).
  destruct (db_fault env sid); intros H; injection H as _ <-; reflexivity.
Qed.

Lemma upload_keeps_trace (shift_id : string) (doc : json) (w w' : World)
    (r : result unit) :
  upload_report_to_s3 env shift_id doc w = (r, w') -> trace w' = trace w.
Proof.
  unfold upload_report_to_s3.
  destruct (s3_fault env shift_id); intros H; injection H as _ <-; reflexivity.
Qed.

Ltac agent_in H lem :=
  match type of H with
  | context [run_stage ?s ?ins ?show ?body ?w] =>
      let Hs := fresh "Hstage" in
      destruct (run_stage s ins show body w) as [? ?] eqn:Hs;
      cbn beta iota in H;
      apply run_stage_keeps in Hs;
      [|apply (single_attempt_keeps_stores env); apply lem];
      destruct Hs as (_ & _ & _ & Hs)
  end.

(** In the flow of section 4.2, whatever the Fatigue and Safety agents
    return, the Summarizer is started with the values of the
    module-level names [fatigue_result] and [safety_result]. *)
Lemma flow_summarizer_inputs (shift_id : string) (w w' : World)
    (r : result json) (g1 g2 : json) :
  globals env !! "fatigue_result" = Some g1 ->
  globals env !! "safety_result" = Some g2 ->
  Flow.analyze_shift env shift_id w = (r, w') ->
  exists evs,
    trace w' = trace w ++ evs
    /\ forall ins, In (Started (Agent Summarizer) ins) evs -> ins = [g1; g2].
Proof.
  intros Hg1 Hg2 H. unfold Flow.analyze_shift in H.
  rewrite bind_lift in H.
  destruct (download_from_s3 env shift_id) as [audio|];
    [|injection H as _ <-; exists []; rewrite app_nil_r; split; [reflexivity|intros ? []]].
  rewrite bind_lift in H.
  destruct (get_shift_metadata env shift_id) as [metadata|];
    [|injection H as _ <-; exists []; rewrite app_nil_r; split; [reflexivity|intros ? []]].
  rewrite bind_lift in H.
  destruct (transcribe env audio) as [transcript|];
    [|injection H as _ <-; exists []; rewrite app_nil_r; split; [reflexivity|intros ? []]].
  cbv zeta in H. unfold Flow.lookup_name in H.
  rewrite bind_lift, Hg1, bind_lift, Hg2 in H.
  unfold Flow.gather, Flow.run_awaitables, Flow.run_awaitable in H.
  unfold mbind, M_bind, mret, M_ret, lift in H.
  agent_in H FatigueAgent_single_attempt.
  agent_in H SafetyAgent_single_attempt.
  agent_in H SummarizerAgent_single_attempt.
  assert (Hfinal : trace w' = trace w2).
  { destruct (Flow.collect [r0; r1; r2]) as [results|];
      [|injection H as _ <-; reflexivity].
    destruct (Py.getitem results 0); [|injection H as _ <-; reflexivity].
    destruct (Py.getitem results 1); [|injection H as _ <-; reflexivity].
    destruct (Py.getitem results 2); [|injection H as _ <-; reflexivity].
    match type of H with
    | context [save_to_database env ?doc ?w0] =>
        destruct (save_to_database env doc w0) as [[[]|] w3] eqn:Hsave;
        apply save_keeps_trace in Hsave
    end; [|injection H as _ <-; exact Hsave].
    match type of H with
    | context [upload_report_to_s3 env ?sid ?doc ?w0] =>
        destruct (upload_report_to_s3 env sid doc w0) as [[[]|] w4] eqn:Hup;
        apply upload_keeps_trace in Hup
    end; injection H as _ <-; congruence. }
  rewrite Hfinal, Hstage1, Hstage0, Hstage, <- !app_assoc.
  eexists. split; [reflexivity|].
  intros ins Hin. cbn in Hin.
  destruct r0, r1, r2; cbn in Hin;
    repeat (destruct Hin as [Hin|Hin];
            [try discriminate; try (injection Hin as <-; reflexivity)|]);
    destruct Hin.
Qed.

End FlowFacts.


Section PipelineResults.

(** C2. In every run of [process_shift], a failure of any stage up to
    and including the write of the report (the download, the metadata,
    the transcription, an agent: extraction failure, backend timeout,
    missing metadata) ends the run with status failed, recorded in the
    error log, with the report store and the uploaded reports exactly
    as before, so a reader still sees the previous report or none; and
    the store changes only by the write of one whole report, made of
    the results that all three agents have returned before. *)
Theorem failed_run_persists_nothing (env : Collaborators)
    (shift_id : string) (w w' : World) (r : result json) :
  Main.process_shift env shift_id w = (r, w') ->
  exists evs,
    trace w' = trace w ++ evs
    /\ (forall s e, In (Failed s e) evs -> s <> UploadReport ->
          r = Ok (status_failed env e)
          /\ db w' = db w /\ s3_reports w' = s3_reports w
          /\ (forall k, Main.get_report k w' = Main.get_report k w)
          /\ In (shift_id, e) (error_log w'))
    /\ (db w' = db w
        \/ exists fatigue safety summary,
             In (Finished (Agent Fatigue) fatigue) evs
             /\ In (Finished (Agent Safety) safety) evs
             /\ In (Finished (Agent Summarizer) summary) evs
             /\ db w' = <[shift_id := stored_report shift_id fatigue safety summary]>
                          (db w)).
Proof.
  intros H. destruct (process_shift_shape env _ _ _ _ H) as (evs & Htr & Hshape).
  exists evs. split; [exact Htr|].
  destruct Hshape as
    [ done_ s0 ins e0 Hnofail _ _ _ _ Hdb Hs3 Hlog Hr
    | f s e0 Hdb Hs3 Hlog Hr
    | f s m e0 Hdb Hs3 Hlog Hr
    | f s m e0 Hdb Hs3 Hlog Hr
    | f s m Hdb Hs3 Hlog Hr ].
  - split; [|now left].
    intros s e Hin _. apply in_app_or in Hin as [Hin|Hin].
    + now apply Hnofail in Hin.
    + cbn in Hin. destruct Hin as [Hin|[Hin|[]]]; [discriminate|].
      injection Hin as -> ->.
      repeat split; try assumption.
      * intros k. unfold Main.get_report, get_from_database. now rewrite Hdb.
      * rewrite Hlog. apply in_or_app. right. now left.
  - split; [|now left].
    intros s' e Hin _. cbn in Hin.
    repeat (destruct Hin as [Hin|Hin]; [try discriminate|]); [|destruct Hin].
    injection Hin as _ ->.
    repeat split; try assumption.
    + intros k. unfold Main.get_report, get_from_database. now rewrite Hdb.
    + rewrite Hlog. apply in_or_app. right. now left.
  - split; [|now left].
    intros s' e Hin _. cbn in Hin.
    repeat (destruct Hin as [Hin|Hin]; [try discriminate|]); [|destruct Hin].
    injection Hin as _ ->.
    repeat split; try assumption.
    + intros k. unfold Main.get_report, get_from_database. now rewrite Hdb.
    + rewrite Hlog. apply in_or_app. right. now left.
  - split.
    + intros s' e Hin Hs'. cbn in Hin.
      repeat (destruct Hin as [Hin|Hin]; [try discriminate|]); [|destruct Hin].
      injection Hin as <- _. congruence.
    + right. exists f, s, m. cbn. intuition.
  - split.
    + intros s' e Hin _. cbn in Hin.
      repeat (destruct Hin as [Hin|Hin]; [try discriminate|]). destruct Hin.
    + right. exists f, s, m. cbn. intuition.
Qed.

Lemma failed_run_persists_nothing_witness :
  let env := demo_collaborators flaky_backend ∅ demo_transcript in
  let run := Main.process_shift env demo_shift_id world_with_report in
  fst run = Ok (status_failed env (External "backend timeout"))
  /\ Main.get_report demo_shift_id (snd run) = Some previous_report.
Proof.
  intros env run.
  destruct (failed_run_persists_nothing env demo_shift_id world_with_report
              (snd run) (fst run) (surjective_pairing run))
    as (evs & Htr & Hfail & _).
  vm_compute in Htr. subst evs.
  destruct (Hfail (Agent Fatigue) (External "backend timeout")
              ltac:(do 7 right; left; reflexivity) ltac:(discriminate))
    as (Hr & _ & _ & Hget & _).
  split; [exact Hr|]. rewrite Hget. reflexivity.
Defined.

(** In [process_shift] the Summarizer starts only after the Fatigue and
    the Safety agent have returned, and with their two results as its
    inputs. *)
Lemma summarizer_after_upstream (env : Collaborators) (shift_id : string)
    (w w' : World) (r : result json) :
  Main.process_shift env shift_id w = (r, w') ->
  exists evs,
    trace w' = trace w ++ evs
    /\ forall i ins, evs !! i = Some (Started (Agent Summarizer) ins) ->
         exists j k fatigue safety,
           j < i /\ k < i
           /\ evs !! j = Some (Finished (Agent Fatigue) fatigue)
           /\ evs !! k = Some (Finished (Agent Safety) safety)
           /\ ins = [fatigue; safety].
Proof.
  intros H. destruct (process_shift_shape env _ _ _ _ H) as (evs & Htr & Hshape).
  exists evs. split; [exact Htr|]. intros i ins Hi.
  assert (Hten : forall f s rest,
             (upstream_events f s ++ Started (Agent Summarizer) [f; s] :: rest) !! i
             = Some (Started (Agent Summarizer) ins) ->
             (forall ins', ~ In (Started (Agent Summarizer) ins') rest) ->
             exists j k fatigue safety,
               j < i /\ k < i
               /\ (upstream_events f s ++ Started (Agent Summarizer) [f; s] :: rest) !! j
                  = Some (Finished (Agent Fatigue) fatigue)
               /\ (upstream_events f s ++ Started (Agent Summarizer) [f; s] :: rest) !! k
                  = Some (Finished (Agent Safety) safety)
               /\ ins = [fatigue; safety]).
  { intros f s rest Hl Hrest.
    do 10 (destruct i as [|i]; [discriminate|]).
    destruct i as [|i].
    - injection Hl as <-. exists 7, 9, f, s. repeat split; lia.
    - cbn in Hl. apply list_elem_of_lookup_2, list_elem_of_In in Hl.
      now apply Hrest in Hl. }
  destruct Hshape as
    [ done_ s0 ins0 e0 _ Hnostart Hs0 _ _ _ _ _ _
    | f s e0 _ _ _ _
    | f s m e0 _ _ _ _
    | f s m e0 _ _ _ _
    | f s m _ _ _ _ ].
  - exfalso.
    apply list_elem_of_lookup_2, list_elem_of_In, in_app_or in Hi as [Hi|Hi].
    + now apply Hnostart in Hi.
    + cbn in Hi. destruct Hi as [Hi|[Hi|[]]]; [|discriminate].
      injection Hi as -> _. congruence.
  - apply Hten; [exact Hi|]. intros ins' Hin. cbn in Hin. intuition discriminate.
  - apply Hten; [exact Hi|]. intros ins' Hin. cbn in Hin. intuition discriminate.
  - apply Hten; [exact Hi|]. intros ins' Hin. cbn in Hin. intuition discriminate.
  - apply Hten; [exact Hi|]. intros ins' Hin. cbn in Hin. intuition discriminate.
Qed.

(** In the flow of section 4.2, when [fatigue_result] is not a
    module-level name, no agent runs and the world is left as it was. *)
Lemma flow_unbound_names (env : Collaborators) (shift_id : string) (w : World) :
  globals env !! "fatigue_result" = None ->
  exists e, Flow.analyze_shift env shift_id w = (Raise e, w).
Proof.
  intros Hnone. unfold Flow.analyze_shift.
  rewrite bind_lift. destruct (download_from_s3 env shift_id); [|eauto].
  rewrite bind_lift. destruct (get_shift_metadata env shift_id); [|eauto].
  rewrite bind_lift. destruct (transcribe env a); [|eauto].
  cbv zeta. unfold Flow.lookup_name. rewrite bind_lift, Hnone. eauto.
Qed.

(** C3. The processing flow of section 4.2 does not feed the Summarizer
    with the results of the Fatigue and Safety agents: it builds the
    Summarizer call, with the names [fatigue_result] and
    [safety_result], as an argument of the same [gather] that starts
    the two other agents. When the names are unbound the flow raises
    NameError before any agent has run and nothing is stored; when
    they are bound at module level the Summarizer is started with
    those values, whatever the two agents return in this run. *)
Theorem flow_summarizer_not_fed_by_upstream :
  Flow.analyze_shift (demo_collaborators healthy_backend ∅ demo_transcript)
    demo_shift_id empty_world
  = (Raise (NameError "fatigue_result"), empty_world)
  /\ (let run := Flow.analyze_shift
                   (demo_collaborators healthy_backend stale_names demo_transcript)
                   demo_shift_id empty_world in
      In (Finished (Agent Fatigue) demo_fatigue_result) (trace (snd run))
      /\ In (Finished (Agent Safety) safety_reply) (trace (snd run))
      /\ In (Started (Agent Summarizer) [stale_result; stale_result])
            (trace (snd run))
      /\ ~ In (Started (Agent Summarizer) [demo_fatigue_result; safety_reply])
             (trace (snd run))).
Proof.
  split; [reflexivity|].
  vm_compute. repeat split; auto 20.
  intros H. repeat (destruct H as [H|H]; [discriminate|]). destruct H.
Qed.

Lemma runs_in_flight_request (shift_id other : string) (w : World) :
  Main.runs_in_flight other (snd (Main.analyze_shift shift_id w))
  = Main.runs_in_flight other w + length (filter (fun s => s = other) [shift_id]).
Proof.
  unfold Main.runs_in_flight.
  change (background_tasks (snd (Main.analyze_shift shift_id w)))
    with (background_tasks w ++ [shift_id]).
  now rewrite filter_app, length_app.
Qed.

Lemma runs_in_flight_requests (ids : list string) (other : string) (w : World) :
  Main.runs_in_flight other (requests ids w)
  = Main.runs_in_flight other w + length (filter (fun s => s = other) ids).
Proof.
  revert w. induction ids as [|id ids IH]; intros w.
  - cbn. lia.
  - cbn [requests fold_left]. fold (requests ids (snd (Main.analyze_shift id w))).
    rewrite IH, runs_in_flight_request.
    change (id :: ids) with ([id] ++ ids).
    rewrite (filter_app _ [id] ids), length_app. lia.
Qed.

(** C1. [analyze_shift] has no run guard: for every shift id and in
    every state it schedules one more run of the shift and returns
    status processing; after any sequence of requests, the runs of a
    shift in flight have grown by the number of requests for it. *)
Theorem analyze_shift_always_processing (shift_id : string) (w : World) :
  fst (Main.analyze_shift shift_id w)
  = Ok (JDict [("status", JStr "processing"); ("shift_id", JStr shift_id)])
  /\ background_tasks (snd (Main.analyze_shift shift_id w))
     = background_tasks w ++ [shift_id]
  /\ Main.runs_in_flight shift_id (snd (Main.analyze_shift shift_id w))
     = S (Main.runs_in_flight shift_id w)
  /\ db (snd (Main.analyze_shift shift_id w)) = db w
  /\ forall ids : list string,
       Main.runs_in_flight shift_id (requests ids w)
       = Main.runs_in_flight shift_id w
         + length (filter (fun s => s = shift_id) ids).
Proof.
  split; [reflexivity|]. split; [reflexivity|].
  split; [|split; [reflexivity|]].
  - rewrite runs_in_flight_request, filter_cons, decide_True by reflexivity.
    cbn. lia.
  - intros ids. apply runs_in_flight_requests.
Qed.

(** Counterexample to C1 as the specification words it: a second
    request for a shift whose run is still in flight is not rejected,
    and two runs of the shift are then in flight. *)
Lemma second_request_not_rejected :
  let w1 := snd (Main.analyze_shift demo_shift_id empty_world) in
  let run2 := Main.analyze_shift demo_shift_id w1 in
  Main.runs_in_flight demo_shift_id w1 = 1
  /\ fst run2 = Ok (JDict [("status", JStr "processing");
                           ("shift_id", JStr demo_shift_id)])
  /\ fst run2 <> Ok (JDict [("status", JStr "rejected");
                            ("shift_id", JStr demo_shift_id)])
  /\ Main.runs_in_flight demo_shift_id (snd run2) = 2.
Proof. vm_compute. repeat split. discriminate. Qed.

(** A scheduled run leaves the list when it has ended, whatever its
    status. *)
Lemma run_background_task_releases (env : Collaborators) (shift_id : string)
    (rest : list string) (w : World) :
  background_tasks w = shift_id :: rest ->
  background_tasks (Main.run_background_task env w) = rest
  /\ Main.runs_in_flight shift_id (Main.run_background_task env w)
     = Main.runs_in_flight shift_id w - 1.
Proof.
  intros Hq. unfold Main.run_background_task, Main.runs_in_flight.
  rewrite Hq. cbn [background_tasks]. split; [reflexivity|].
  rewrite filter_cons, decide_True by reflexivity. cbn. lia.
Qed.

(** The end-to-end scenario of four entries does not get through the
    Fatigue agent: its samples cannot be taken, and the run fails. *)
Lemma scenario_run_fails :
  let env := demo_collaborators healthy_backend ∅ scenario_transcript in
  fst (FatigueAgent_analyze env scenario_transcript demo_metadata empty_world)
  = Raise (ValueError "slice step cannot be zero")
  /\ fst (Main.process_shift env demo_shift_id empty_world)
     = Ok (status_failed env (ValueError "slice step cannot be zero"))
  /\ Main.get_report demo_shift_id
       (snd (Main.process_shift env demo_shift_id empty_world)) = None.
Proof. vm_compute. repeat split. Qed.

End PipelineResults.

(** * The upload form *)

Section UploadForm.
Import UploadAudio.
Variable browser : Browser.

Lemma set_if_empty (c : bool) (k msg : string) (m : gmap string string) :
  set_if c k msg m = ∅ -> c = false /\ m = ∅.
Proof.
  destruct c; cbn; [|auto].
  intros H. now apply insert_non_empty in H.
Qed.

Lemma set_if_lookup_ne (c : bool) (k k' msg : string) (m : gmap string string) :
  k <> k' -> set_if c k msg m !! k' = m !! k'.
Proof.
  intros Hne. destruct c; cbn; [|reflexivity]. now apply lookup_insert_ne.
Qed.

Lemma set_if_nonempty (c : bool) (k msg : string) (m : gmap string string) :
  m <> ∅ -> set_if c k msg m <> ∅.
Proof.
  intros Hm H. apply set_if_empty in H as [_ H]. contradiction.
Qed.

Lemma validateForm_true (st : State) :
  fst (validateForm browser st) = true -> form_errors browser st = ∅.
Proof.
  unfold validateForm. cbn [fst]. intros H.
  apply bool_decide_eq_true in H. now apply map_size_empty_iff.
Qed.

(** A form that passes the validation has a start and an end time, and
    the end is not at or before the start. *)
Lemma accepted_times (st : State) :
  fst (validateForm browser st) = true ->
  nonempty (startTime (formData st)) = true
  /\ nonempty (endTime (formData st)) = true
  /\ js_le (Date_getTime browser (endTime (formData st)))
           (Date_getTime browser (startTime (formData st))) = false.
Proof.
  intros H. apply validateForm_true in H. unfold form_errors in H.
  cbv zeta in H.
  repeat match type of H with
         | set_if _ _ _ _ = ∅ => apply set_if_empty in H as [_ H]
         end.
  destruct (nonempty (startTime (formData st))) eqn:Hs,
           (nonempty (endTime (formData st))) eqn:He; cbn [andb negb] in H.
  - apply set_if_empty in H as [Hle H]. auto.
  - apply set_if_empty in H as [Hc _]. discriminate.
  - apply set_if_empty in H as [_ H].
    apply set_if_empty in H as [Hc _]. discriminate.
  - apply set_if_empty in H as [Hc _]. discriminate.
Qed.

Lemma nonempty_true (s : string) : nonempty s = true -> s <> "".
Proof. destruct s; [discriminate | discriminate]. Qed.

(** A form that passes the validation and whose times [Date] parses
    has its end strictly after its start, and a positive time on
    duty. *)
Lemma accepted_parsed_times (st : State) (s e : Z) :
  fst (validateForm browser st) = true ->
  Date_getTime browser (startTime (formData st)) = Some s ->
  Date_getTime browser (endTime (formData st)) = Some e ->
  (s < e)%Z
  /\ duty_milliseconds browser (formData st) = Some (e - s)%Z
  /\ (0 < e - s)%Z.
Proof.
  intros Hok Hs He. destruct (accepted_times st Hok) as (_ & _ & Hle).
  unfold duty_milliseconds. rewrite Hs, He in *.
  cbn in Hle. apply Z.leb_gt in Hle.
  repeat split; auto; lia.
Qed.

(** A form whose end is at or before its start, both parsed, is
    rejected with an error. *)
Lemma reversed_times_rejected (st : State) (s e : Z) :
  Date_getTime browser (startTime (formData st)) = Some s ->
  Date_getTime browser (endTime (formData st)) = Some e ->
  (e <= s)%Z ->
  fst (validateForm browser st) = false
  /\ errors (snd (validateForm browser st)) <> ∅
  /\ (startTime (formData st) <> "" ->
      errors (snd (validateForm browser st)) !! "endTime"
      = Some (if nonempty (endTime (formData st))
              then "End time must be after start time"
              else "End time is required")).
Proof.
  intros Hs He Hle.
  assert (Hrej : fst (validateForm browser st) = false).
  { destruct (fst (validateForm browser st)) eqn:Hok; [|reflexivity].
    destruct (accepted_times st Hok) as (_ & _ & Hnle).
    rewrite Hs, He in Hnle. cbn in Hnle. apply Z.leb_gt in Hnle. lia. }
  split; [exact Hrej|]. split.
  + unfold validateForm in *. cbn [fst snd with_file errors] in *.
    apply bool_decide_eq_false in Hrej.
    intros Hempty. apply Hrej. rewrite Hempty. apply map_size_empty.
  + intros Hne. unfold validateForm. cbn [snd with_file errors].
    unfold form_errors. cbv zeta.
    rewrite !set_if_lookup_ne by discriminate.
    destruct (startTime (formData st)) as [|c s0] eqn:Est; [congruence|].
    cbn [nonempty andb].
    destruct (nonempty (endTime (formData st))) eqn:Een.
    * rewrite Hs, He. cbn [js_le].
      apply Z.leb_le in Hle. rewrite Hle. cbn [set_if].
      apply lookup_insert_eq.
    * cbn [negb set_if]. apply lookup_insert_eq.
Qed.

(** Without a selected file nothing is submitted. *)
Lemma submit_without_file (st : State) :
  audioFile st = None ->
  submitted (handleSubmit browser st) = submitted st
  /\ fst (validateForm browser st) = false.
Proof.
  intros Hnone.
  assert (Hrej : fst (validateForm browser st) = false).
  { destruct (fst (validateForm browser st)) eqn:Hok; [|reflexivity].
    apply validateForm_true in Hok.
    assert (Hl : form_errors browser st !! "audioFile"
                 = Some "Please select an audio file").
    { unfold form_errors. cbv zeta.
      rewrite !set_if_lookup_ne by discriminate.
      destruct (nonempty (startTime (formData st))
                && nonempty (endTime (formData st)));
        rewrite !set_if_lookup_ne by discriminate;
        rewrite Hnone; cbn; apply lookup_insert_eq. }
    rewrite Hok, lookup_empty in Hl. discriminate. }
  split; [|exact Hrej].
  unfold handleSubmit. unfold validateForm in *. cbn [fst] in Hrej.
  cbv zeta. rewrite Hrej. reflexivity.
Qed.

Lemma includes_In (l : list string) (t : string) :
  includes l t = true <-> In t l.
Proof.
  unfold includes. rewrite existsb_exists. split.
  - intros (x & Hin & Heq). apply String.eqb_eq in Heq. now subst.
  - intros Hin. exists t. split; [exact Hin | apply String.eqb_refl].
Qed.

Lemma exceeds_false (d : duration) :
  exceeds d maxDurationSeconds = false <->
  exists secs, d = Seconds secs /\ (secs <= 1800)%Q.
Proof.
  unfold exceeds, maxDurationSeconds. destruct d as [q|].
  - split.
    + intros H. exists q. split; [reflexivity|].
      unfold Py.Qlt_bool in H. apply negb_false_iff, Qle_bool_iff in H.
      assert (30 * 60 == 1800)%Q by reflexivity. lra.
    + intros (secs & Heq & Hle). injection Heq as <-.
      unfold Py.Qlt_bool. apply negb_false_iff, Qle_bool_iff.
      assert (30 * 60 == 1800)%Q by reflexivity. lra.
  - split; [discriminate|]. intros (secs & Heq & _). discriminate.
Qed.

(** C10. Selecting a file either keeps it, and then its type is one of
    the five audio types and its measured duration is at most 1800
    seconds, or, when one of the two checks fails, clears the selected
    file and sets an error message for it; and as long as no file is
    selected a submission, whatever the form data, is refused by the
    validation and queues nothing. *)
Theorem audio_file_checked (st : State) (file : File) :
  let st' := handleAudioChange browser (Some file) st in
  (within_limits browser file
   /\ audioFile st' = Some file
   /\ errors st' !! "audioFile" = None)
  \/ (~ within_limits browser file
      /\ audioFile st' = None
      /\ is_Some (errors st' !! "audioFile")
      /\ forall form,
           submitted (handleSubmit browser (with_form st' form)) = submitted st
           /\ fst (validateForm browser (with_form st' form)) = false).
Proof.
  cbn zeta. unfold handleAudioChange.
  destruct (includes validTypes (file_type file)) eqn:Htype; cbn [negb].
  - destruct (exceeds (getAudioDuration browser file) maxDurationSeconds) eqn:Hdur.
    + right. split; [|split; [reflexivity|split]].
      * intros [_ Hlim]. apply exceeds_false in Hlim. congruence.
      * cbn. rewrite lookup_singleton_eq. eauto.
      * intros form.
        match goal with
        | |- submitted (handleSubmit browser ?s) = _ /\ _ =>
            destruct (submit_without_file s eq_refl) as [H1 H2]
        end.
        split; [exact H1 | exact H2].
    + left. split; [split|split].
      * now apply includes_In in Htype.
      * now apply exceeds_false.
      * reflexivity.
      * cbn. apply lookup_delete_eq.
  - right. split; [|split; [reflexivity|split]].
    + intros [Hin _]. apply includes_In in Hin. unfold validTypes in Htype.
      congruence.
    + cbn. rewrite lookup_singleton_eq. eauto.
    + intros form.
      match goal with
      | |- submitted (handleSubmit browser ?s) = _ /\ _ =>
          destruct (submit_without_file s eq_refl) as [H1 H2]
      end.
      split; [exact H1 | exact H2].
Qed.

End UploadForm.

(** C9. The validation of the upload form lets through a shift whose
    time on duty is not positive: the comparison [end <= start] is false
    when [Date] does not parse one of the two times, so a form with the
    start time 20240-01-15T06:00, in a browser whose [Date] does not
    parse it, is accepted and queued, and its time on duty is not a
    number. What the validation does ensure: when both times are
    parsed, an accepted form has its end strictly after its start and a
    positive time on duty, and a form whose end is at or before its
    start is rejected with an error on the end time. *)
Theorem unparsed_time_passes_validation :
  (let st := demo_state demo_form_unparsed in
   UploadAudio.Date_getTime demo_browser
     (UploadAudio.startTime demo_form_unparsed) = None
   /\ fst (UploadAudio.validateForm demo_browser st) = true
   /\ UploadAudio.submitted (UploadAudio.handleSubmit demo_browser st)
      = [(Some demo_file, demo_form_unparsed)]
   /\ UploadAudio.duty_milliseconds demo_browser demo_form_unparsed = None)
  /\ (forall browser st s e,
        fst (UploadAudio.validateForm browser st) = true ->
        UploadAudio.Date_getTime browser
          (UploadAudio.startTime (UploadAudio.formData st)) = Some s ->
        UploadAudio.Date_getTime browser
          (UploadAudio.endTime (UploadAudio.formData st)) = Some e ->
        (s < e)%Z
        /\ UploadAudio.duty_milliseconds browser (UploadAudio.formData st)
           = Some (e - s)%Z
        /\ (0 < e - s)%Z)
  /\ (forall browser st s e,
        UploadAudio.Date_getTime browser
          (UploadAudio.startTime (UploadAudio.formData st)) = Some s ->
        UploadAudio.Date_getTime browser
          (UploadAudio.endTime (UploadAudio.formData st)) = Some e ->
        (e <= s)%Z ->
        fst (UploadAudio.validateForm browser st) = false
        /\ UploadAudio.errors (snd (UploadAudio.validateForm browser st)) <> ∅
        /\ (UploadAudio.startTime (UploadAudio.formData st) <> "" ->
            UploadAudio.errors (snd (UploadAudio.validateForm browser st))
              !! "endTime"
            = Some (if UploadAudio.nonempty
                         (UploadAudio.endTime (UploadAudio.formData st))
                    then "End time must be after start time"
                    else "End time is required"))).
Proof.
  split; [|split].
  - cbv zeta. split; [reflexivity|]. split; [vm_compute; reflexivity|].
    split; [vm_compute; reflexivity | reflexivity].
  - intros browser st s e. apply accepted_parsed_times.
  - intros browser st s e. apply reversed_times_rejected.
Qed.

(** * More on the hesitation count *)

Section HesitationFacts.
Import FatigueText.

Lemma hesitation_total_filter (tr : list TranscriptEntry) :
  hesitation_total (List.filter is_controller tr) = hesitation_total tr.
Proof.
  induction tr as [|e tr IH]; [reflexivity|].
  cbn [List.filter]. unfold is_controller at 1.
  destruct (String.eqb (speaker e) "controller") eqn:He.
  - rewrite !hesitation_total_cons, He, IH. reflexivity.
  - rewrite hesitation_total_cons, He, IH. reflexivity.
Qed.

(** X4. The hesitation count of two transcripts put end to end is the
    sum of their counts, and the entries whose speaker is not exactly
    "controller" can be dropped without changing it. *)
Theorem hesitation_count_additive :
  (forall a b : list TranscriptEntry,
     _count_hesitations (a ++ b) = _count_hesitations a + _count_hesitations b)
  /\ (forall tr : list TranscriptEntry,
        _count_hesitations (List.filter is_controller tr)
        = _count_hesitations tr).
Proof.
  split.
  - intros a b. rewrite !count_hesitations_total. apply hesitation_total_app.
  - intros tr. rewrite !count_hesitations_total. apply hesitation_total_filter.
Qed.

(** X5. The hesitation count does not depend on the order of the
    transmissions. *)
Theorem hesitation_count_permutation (tr tr' : list TranscriptEntry) :
  Permutation tr tr' -> _count_hesitations tr = _count_hesitations tr'.
Proof.
  intros H. rewrite !count_hesitations_total.
  induction H as [|e tr tr' _ IH|e1 e2 tr|tr1 tr2 tr3 _ IH1 _ IH2].
  - reflexivity.
  - rewrite !hesitation_total_cons, IH. reflexivity.
  - rewrite !hesitation_total_cons. lia.
  - congruence.
Qed.

Lemma hesitation_count_permutation_witness :
  _count_hesitations scenario_transcript
  = _count_hesitations (rev scenario_transcript).
Proof.
  apply hesitation_count_permutation. apply Permutation_rev.
Defined.

Lemma lower_upper_ascii (c : ascii) :
  Py.lower_ascii (Py.upper_ascii c) = Py.lower_ascii c.
Proof. destruct c as [[] [] [] [] [] [] [] []]; reflexivity. Qed.

Lemma lower_upper (s : string) : Py.lower (Py.upper s) = Py.lower s.
Proof.
  induction s as [|c s IH]; [reflexivity|].
  cbn [Py.upper Py.lower]. now rewrite lower_upper_ascii, IH.
Qed.

(** X6. The hesitation count is blind to case: putting the text of
    every transmission in upper case leaves it as it is. *)
Theorem hesitation_count_ignores_case (tr : list TranscriptEntry) :
  _count_hesitations (map shouted tr) = _count_hesitations tr.
Proof.
  rewrite !count_hesitations_total.
  induction tr as [|e tr IH]; [reflexivity|].
  cbn [map]. rewrite !hesitation_total_cons, IH.
  cbn [shouted speaker text]. now rewrite lower_upper.
Qed.

End HesitationFacts.

(** * More on the transcript samples *)

Section SampleFacts.
Import FatigueText.
Variable str_of_num : float -> string.

Lemma format_samples_selected (transcript : list TranscriptEntry) (n : Z) :
  _format_samples str_of_num transcript n
  = (samples ← selected_samples transcript n;
     Ok (Py.join (String (ascii_of_nat 10) "")
                 (map (format_sample str_of_num) samples))).
Proof.
  unfold _format_samples, selected_samples.
  destruct (Py.floordiv (Z.of_nat (length transcript)) n) as [k|];
    [|reflexivity].
  cbn [mbind result_bind].
  destruct (Py.slice_step transcript k); reflexivity.
Qed.

(** X7. For a transcript of at least 10 entries the sample text is the
    10 formatted entries at the positions 0, k, 2k, ..., 9k for the
    stride k = len // 10, one per line. *)
Theorem format_samples_content (transcript : list TranscriptEntry) :
  10 <= length transcript ->
  exists samples,
    _format_samples str_of_num transcript 10
    = Ok (Py.join (String (ascii_of_nat 10) "")
                  (map (format_sample str_of_num) samples))
    /\ length samples = 10
    /\ forall i, i < 10 ->
         samples !! i = transcript !! (i * (length transcript / 10)).
Proof.
  intros Hlen.
  destruct (selected_samples_long transcript Hlen) as (samples & Hsel & Hl & Hi).
  exists samples. rewrite format_samples_selected, Hsel. auto.
Qed.

Lemma stride_from_one {A} (l : list A) : Py.stride_from 1 0 l = l.
Proof.
  induction l as [|x l IH]; [reflexivity|].
  cbn [Py.stride_from Nat.sub]. now rewrite IH.
Qed.

(** X8. For a transcript of 10 to 19 entries the stride is 1 and the
    samples are its first ten entries: what follows them does not
    reach the prompt. *)
Theorem format_samples_first_ten (transcript : list TranscriptEntry) :
  10 <= length transcript < 20 ->
  _format_samples str_of_num transcript 10
  = Ok (Py.join (String (ascii_of_nat 10) "")
                (map (format_sample str_of_num) (take 10 transcript))).
Proof.
  intros [Hlo Hhi]. rewrite format_samples_selected.
  unfold selected_samples, Py.floordiv. cbn [Z.eqb mbind result_bind].
  assert (Hk : (Z.of_nat (length transcript) / 10 = 1)%Z).
  { symmetry. apply (Z.div_unique _ 10 1 (Z.of_nat (length transcript) - 10)); lia. }
  rewrite Hk. unfold Py.slice_step. cbn [Z.eqb Z.ltb Z.compare mbind result_bind].
  change (Z.to_nat 1) with 1. rewrite stride_from_one.
  reflexivity.
Qed.

(** X9. When [_format_samples] faults, for every sample size: with
    size 0 it raises ZeroDivisionError; with a positive size it
    returns exactly when the transcript has at least that many
    entries; with a negative size exactly when the transcript is not
    empty. *)
Theorem format_samples_faults (transcript : list TranscriptEntry) (n : Z) :
  _format_samples str_of_num transcript 0 = Raise ZeroDivisionError
  /\ is_ok (_format_samples str_of_num transcript n)
     = (if n =? 0 then false
        else if 0 <? n then n <=? Z.of_nat (length transcript)
        else 0 <? Z.of_nat (length transcript))%Z.
Proof.
  split; [reflexivity|].
  rewrite format_samples_selected. unfold selected_samples, Py.floordiv.
  destruct (Z.eqb_spec n 0) as [->|Hn]; [reflexivity|].
  cbn [mbind result_bind]. unfold Py.slice_step.
  set (len := Z.of_nat (length transcript)).
  assert (Hlen : (0 <= len)%Z) by (unfold len; lia).
  destruct (Z.ltb_spec 0 n) as [Hpos|Hneg].
  - destruct (Z.leb_spec n len) as [Hle|Hgt].
    + assert (0 < len / n)%Z by (apply Z.div_str_pos; lia).
      destruct (Z.eqb_spec (len / n) 0); [lia|].
      destruct (Z.ltb_spec 0 (len / n)); reflexivity.
    + rewrite Z.div_small by lia. reflexivity.
  - assert (Hn' : (n < 0)%Z) by lia.
    destruct (Z.ltb_spec 0 len) as [Hl|Hl].
    + assert (Hq : (len / n < 0)%Z).
      { pose proof (Z.div_mod len n Hn) as Hdm.
        pose proof (Z.mod_neg_bound len n Hn') as Hb. nia. }
      destruct (Z.eqb_spec (len / n) 0); [lia|].
      destruct (Z.ltb_spec 0 (len / n)); reflexivity.
    + assert (H0 : len = 0%Z) by lia. rewrite H0.
      destruct n; reflexivity.
Qed.

End SampleFacts.

Lemma format_samples_content_witness :
  exists samples,
    FatigueText._format_samples (fun _ => "#") demo_transcript 10
    = Ok (Py.join (String (ascii_of_nat 10) "")
                  (map (FatigueText.format_sample (fun _ => "#")) samples))
    /\ length samples = 10
    /\ forall i, i < 10 -> samples !! i = demo_transcript !! (i * 1).
Proof.
  apply (format_samples_content (fun _ => "#") demo_transcript).
  vm_compute. lia.
Defined.

Lemma format_samples_first_ten_witness :
  FatigueText._format_samples (fun _ => "#") demo_transcript 10
  = Ok (Py.join (String (ascii_of_nat 10) "")
                (map (FatigueText.format_sample (fun _ => "#"))
                     (take 10 demo_transcript))).
Proof.
  apply (format_samples_first_ten (fun _ => "#") demo_transcript).
  vm_compute. lia.
Defined.

(** * More on the agents *)

Section AgentEdges.
Variable env : Collaborators.

Ltac lift_ok :=
  rewrite bind_lift;
  match goal with
  | |- context [match ?r with Ok _ => _ | Raise _ => _ end] =>
      destruct r; [|eauto]
  end.

Lemma fatigue_short_transcript (transcript : list TranscriptEntry)
    (metadata : gmap string json) (w : World) :
  length transcript < 10 ->
  exists e, FatigueAgent_analyze env transcript metadata w = (Raise e, w).
Proof.
  intros Hlen. unfold FatigueAgent_analyze.
  lift_ok. cbv zeta. do 4 lift_ok.
  rewrite bind_lift, format_samples_short by exact Hlen. eauto.
Qed.

(** X10. On a transcript of fewer than 10 entries [FatigueAgent.analyze]
    raises before it calls the model: no prompt is sent and no result
    is returned. *)
Theorem fatigue_agent_needs_ten_entries (transcript : list TranscriptEntry)
    (metadata : gmap string json) (w : World) :
  length transcript < 10 ->
  exists e, FatigueAgent_analyze env transcript metadata w = (Raise e, w).
Proof. apply fatigue_short_transcript. Qed.

Lemma lookup_key_first_missing (metadata : gmap string json) (k : string)
    (rest : list string) (missing : string) :
  first_missing metadata (k :: rest) = Some missing ->
  (Py.lookup_key metadata k = Raise (KeyError k) /\ missing = k)
  \/ (exists v, Py.lookup_key metadata k = Ok v
                /\ first_missing metadata rest = Some missing).
Proof.
  cbn [first_missing]. unfold Py.lookup_key.
  destruct (metadata !! k) as [v|].
  - intros H. right. eauto.
  - intros H. injection H as <-. now left.
Qed.

(** X11. When the metadata lacks one of [start_time], [schedule_type],
    [position], [FatigueAgent.analyze] raises KeyError for the first
    missing one, without calling the model. *)
Theorem fatigue_agent_missing_metadata (transcript : list TranscriptEntry)
    (metadata : gmap string json) (w : World) (hours : Q) (missing : string) :
  _get_hours_on_duty env metadata = Ok hours ->
  first_missing metadata ["start_time"; "schedule_type"; "position"]
  = Some missing ->
  FatigueAgent_analyze env transcript metadata w = (Raise (KeyError missing), w).
Proof.
  intros Hh Hm. unfold FatigueAgent_analyze.
  rewrite bind_lift.
  destruct (response_times_aggregates transcript) as (rt & -> & _).
  cbv zeta. rewrite bind_lift, Hh.
  apply lookup_key_first_missing in Hm as [[-> ->]|(v1 & -> & Hm)];
    rewrite bind_lift; [reflexivity|].
  apply lookup_key_first_missing in Hm as [[-> ->]|(v2 & -> & Hm)];
    rewrite bind_lift; [reflexivity|].
  apply lookup_key_first_missing in Hm as [[-> ->]|(v3 & -> & Hm)];
    rewrite bind_lift; [reflexivity|].
  discriminate.
Qed.

(** X12. When the extractor returns, for the reply of the model,
    something that is not a dict, [FatigueAgent.analyze] cannot attach
    the metrics: after its single call it raises TypeError; when it
    returns a dict, the invocation succeeds. *)
Theorem fatigue_agent_reply_shape (transcript : list TranscriptEntry)
    (metadata : gmap string json) (w w' : World) (r : result json)
    (prompt reply : string) (v : json) :
  FatigueAgent_analyze env transcript metadata w = (r, w') ->
  w' = called prompt w ->
  backend env (length (llm_calls w)) prompt = Ok reply ->
  _extract_json env reply = Ok v ->
  if is_dict v then is_ok r = true
  else r = Raise (TypeError "object does not support item assignment").
Proof.
  intros H Hw Hb Hx. subst w'. unfold FatigueAgent_analyze in H.
  assert (Hne : forall e : exn, (Raise e, w) = (r, called prompt w) -> False).
  { intros e He. injection He as _ Hw.
    apply (f_equal (fun x => length (llm_calls x))) in Hw.
    cbn in Hw. rewrite length_app in Hw. cbn in Hw. lia. }
  repeat (rewrite bind_lift in H;
          match type of H with
          | match ?x with Ok _ => _ | Raise _ => _ end = _ =>
              destruct x; [|exfalso; eapply Hne; exact H]
          end; cbv zeta in H).
  unfold mbind at 1, M_bind at 1, client_create in H.
  match type of H with
  | context [backend env ?n ?p] =>
      destruct (backend env n p) as [reply'|] eqn:Hreply
  end.
  - rewrite bind_lift in H.
    assert (Hp : reply' = reply).
    { destruct (_extract_json env reply');
        [rewrite bind_lift in H;
         match type of H with
         | match ?x with Ok _ => _ | Raise _ => _ end = _ => destruct x
         end|];
        injection H as _ Hw;
        apply app_inj_tail in Hw as [_ <-]; congruence. }
    subst reply'. rewrite Hx in H. rewrite bind_lift in H.
    destruct v; cbn in H; injection H as <- _; reflexivity.
  - injection H as _ Hw.
    apply app_inj_tail in Hw as [_ <-]. congruence.
Qed.

End AgentEdges.


Section OtherAgents.
Variable env : Collaborators.

Ltac lift_in H :=
  rewrite bind_lift in H;
  match type of H with
  | match ?x with Ok _ => _ | Raise _ => _ end = _ =>
      let E := fresh "E" in destruct x eqn:E; [|discriminate]
  end.

Lemma lookup_key_ok (metadata : gmap string json) (k : string) (v : json) :
  Py.lookup_key metadata k = Ok v -> metadata !! k = Some v.
Proof.
  unfold Py.lookup_key. destruct (metadata !! k); [|discriminate].
  intros H. now injection H as <-.
Qed.

Lemma call_extract_ok (prompt : string) (w w' : World) (r : json) :
  (response ← client_create env prompt; lift (_extract_json env response)) w
  = (Ok r, w') ->
  w' = called prompt w
  /\ exists reply, backend env (length (llm_calls w)) prompt = Ok reply
                   /\ _extract_json env reply = Ok r.
Proof.
  unfold mbind, M_bind, client_create, lift, called.
  destruct (backend env (length (llm_calls w)) prompt) as [reply|];
    [|discriminate].
  intros H. injection H as Hx <-. eauto.
Qed.

(** X13. A result of [SafetyAgent.analyze] is, unchanged, what the
    extractor made of the reply to its single call, and the prompt of
    that call is built from the facility, the position and the full
    transcript, all of which must be there. *)
Theorem safety_agent_returns_extraction (transcript : list TranscriptEntry)
    (metadata : gmap string json) (w w' : World) (r : json) :
  SafetyAgent_analyze env transcript metadata w = (Ok r, w') ->
  exists facility position full reply,
    metadata !! "facility" = Some facility
    /\ metadata !! "position" = Some position
    /\ _format_full_transcript env transcript = Ok full
    /\ w' = called (prompt_template env Safety
                      [str_of_json env facility; str_of_json env position; full]) w
    /\ backend env (length (llm_calls w))
         (prompt_template env Safety
            [str_of_json env facility; str_of_json env position; full])
       = Ok reply
    /\ _extract_json env reply = Ok r.
Proof.
  intros H. unfold SafetyAgent_analyze in H.
  do 3 lift_in H. cbv zeta in H.
  apply call_extract_ok in H as (-> & reply & Hb & Hx).
  apply lookup_key_ok in E, E0.
  do 4 eexists. repeat split; eassumption.
Qed.

(** X14. [SummarizerAgent.analyze] returns a result only when the
    Fatigue result has the keys [fatigue_score], [severity] and
    [indicators] and the Safety result has [safety_score], a sized
    [issues_found] and [requires_immediate_review]; the result is then
    what the extractor made of the reply to its single call. *)
Theorem summarizer_agent_requirements (transcript : list TranscriptEntry)
    (metadata : gmap string json) (fatigue_result safety_result : json)
    (w w' : World) (r : json) :
  SummarizerAgent_analyze env transcript metadata fatigue_result safety_result w
  = (Ok r, w') ->
  is_ok (Py.subscript fatigue_result "fatigue_score") = true
  /\ is_ok (Py.subscript fatigue_result "severity") = true
  /\ is_ok (Py.subscript fatigue_result "indicators") = true
  /\ is_ok (Py.subscript safety_result "safety_score") = true
  /\ is_ok (issues ← Py.subscript safety_result "issues_found"; Py.len issues) = true
  /\ is_ok (Py.subscript safety_result "requires_immediate_review") = true
  /\ exists prompt reply,
       w' = called prompt w
       /\ backend env (length (llm_calls w)) prompt = Ok reply
       /\ _extract_json env reply = Ok r.
Proof.
  intros H. unfold SummarizerAgent_analyze in H.
  do 12 lift_in H. cbv zeta in H.
  apply call_extract_ok in H as (-> & reply & Hb & Hx).
  cbn. rewrite E9.
  repeat split; try reflexivity. eauto.
Qed.

End OtherAgents.

Lemma fatigue_agent_needs_ten_entries_witness :
  exists e,
    FatigueAgent_analyze demo_env scenario_transcript demo_metadata empty_world
    = (Raise e, empty_world).
Proof.
  apply fatigue_agent_needs_ten_entries. vm_compute. lia.
Defined.

Lemma fatigue_agent_missing_metadata_witness :
  FatigueAgent_analyze demo_env demo_transcript
    (delete "schedule_type" demo_metadata) empty_world
  = (Raise (KeyError "schedule_type"), empty_world).
Proof.
  apply (fatigue_agent_missing_metadata demo_env demo_transcript _ _ 8%Q);
    reflexivity.
Defined.

Lemma fatigue_agent_reply_shape_witness :
  fst (FatigueAgent_analyze (with_extractor demo_env (fun _ => Ok (JList [])))
         demo_transcript demo_metadata empty_world)
  = Raise (TypeError "object does not support item assignment").
Proof.
  pose (env := with_extractor demo_env (fun _ => Ok (JList []))).
  pose (run := FatigueAgent_analyze env demo_transcript demo_metadata empty_world).
  assert (Hw : snd run = called (default "" (last (llm_calls (snd run)))) empty_world)
    by (vm_compute; reflexivity).
  exact (fatigue_agent_reply_shape env demo_transcript demo_metadata empty_world
           (snd run) (fst run) _ "fatigue reply" (JList [])
           (surjective_pairing run) Hw eq_refl eq_refl).
Defined.

Lemma safety_agent_returns_extraction_witness :
  exists r w' facility,
    SafetyAgent_analyze demo_env demo_transcript demo_metadata empty_world
    = (Ok r, w')
    /\ demo_metadata !! "facility" = Some facility.
Proof.
  destruct (SafetyAgent_analyze demo_env demo_transcript demo_metadata empty_world)
    as [[r|e] w'] eqn:H.
  - destruct (safety_agent_returns_extraction _ _ _ _ _ _ H)
      as (facility & position & full & reply & Hf & _ & _ & _ & _ & _).
    exists r, w', facility. split; [reflexivity | exact Hf].
  - exfalso. vm_compute in H. discriminate.
Defined.

Lemma summarizer_agent_requirements_witness :
  is_ok (Py.subscript demo_fatigue_result "fatigue_score") = true
  /\ is_ok (Py.subscript safety_reply "safety_score") = true.
Proof.
  destruct (SummarizerAgent_analyze demo_env demo_transcript demo_metadata
              demo_fatigue_result safety_reply empty_world)
    as [[r|e] w'] eqn:H.
  - destruct (summarizer_agent_requirements _ _ _ _ _ _ _ _ H)
      as (H1 & _ & _ & H4 & _).
    split; assumption.
  - exfalso. vm_compute in H. discriminate.
Defined.


(** * More on [process_shift] *)

Section PipelineFacts.
Variable env : Collaborators.

Lemma makes_calls_lift {A} (r : result A) : makes_calls 0 (lift r).
Proof.
  intros w r' w' H. injection H as _ <-. exists [].
  rewrite app_nil_r. auto.
Qed.

Lemma makes_calls_ret {A} (a : A) : makes_calls 0 (mret a : M A).
Proof.
  intros w r' w' H. injection H as _ <-. exists [].
  rewrite app_nil_r. auto.
Qed.

Lemma makes_calls_bind {A B} (a b : nat) (m : M A) (k : A -> M B) :
  makes_calls a m -> (forall x, makes_calls b (k x)) ->
  makes_calls (a + b) (m ≫= k).
Proof.
  intros Hm Hk w r w' H. unfold mbind, M_bind in H.
  destruct (m w) as [[x|e] w1] eqn:Hmw;
    destruct (Hm _ _ _ Hmw) as (ps & Hps & Hle & Hok).
  - destruct (Hk x _ _ _ H) as (qs & Hqs & Hle' & Hok').
    exists (ps ++ qs). rewrite Hqs, Hps, <- app_assoc, length_app.
    split; [reflexivity|]. split; [lia|].
    intros Hr. rewrite Hok, Hok' by auto. reflexivity.
  - injection H as <- <-. exists ps. split; [exact Hps|].
    split; [lia|]. discriminate.
Qed.

Lemma makes_calls_stage {A} (n : nat) (s : stage) (ins : list json)
    (show : A -> json) (body : M A) :
  makes_calls n body -> makes_calls n (run_stage s ins show body).
Proof.
  intros Hb w r w' H. unfold run_stage in H.
  destruct (body (snd (emit (Started s ins) w))) as [[a|e] w1] eqn:Hbw;
    destruct (Hb _ _ _ Hbw) as (ps & Hps & Hle & Hok);
    injection H as <- <-; exists ps; cbn in *; auto.
Qed.

Lemma makes_calls_agent (run : M json) :
  single_attempt env run -> makes_calls 1 run.
Proof.
  intros Hrun w r w' H.
  destruct (Hrun w) as [[e He]|[prompt Hp]].
  - rewrite He in H. injection H as <- <-. exists [].
    rewrite app_nil_r. split; [reflexivity|]. split; [cbn; lia|]. discriminate.
  - assert (Hw' : w' = called prompt w).
    { destruct (backend env (length (llm_calls w)) prompt) as [reply|e].
      - destruct (_extract_json env reply) as [v|e].
        + destruct Hp as [r' Hr']. congruence.
        + congruence.
      - congruence. }
    subst w'. exists [prompt]. cbn. auto.
Qed.

Lemma makes_calls_save (report : json) :
  makes_calls 0 (save_to_database env report).
Proof.
  intros w r w' H. exists []. rewrite app_nil_r.
  unfold save_to_database in H.
  destruct (Py.subscript report "shift_id") as [[| | | |sid| |]|];
    try (injection H as _ <-; auto).
  destruct (db_fault env sid); injection H as _ <-; auto.
Qed.

Lemma makes_calls_upload (shift_id : string) (doc : json) :
  makes_calls 0 (upload_report_to_s3 env shift_id doc).
Proof.
  intros w r w' H. exists []. rewrite app_nil_r.
  unfold upload_report_to_s3 in H.
  destruct (s3_fault env shift_id); injection H as _ <-; auto.
Qed.

Lemma process_shift_body_calls (shift_id : string) :
  makes_calls 3 (Main.process_shift_body env shift_id).
Proof.
  unfold Main.process_shift_body.
  change 3 with (0 + (0 + (0 + (1 + (1 + (1 + (0 + (0 + 0)))))))).
  apply makes_calls_bind;
    [apply makes_calls_stage, makes_calls_lift|intros audio_data].
  apply makes_calls_bind;
    [apply makes_calls_stage, makes_calls_lift|intros metadata].
  apply makes_calls_bind;
    [apply makes_calls_stage, makes_calls_lift|intros transcript].
  apply makes_calls_bind;
    [apply makes_calls_stage, makes_calls_agent, FatigueAgent_single_attempt
    |intros fatigue].
  apply makes_calls_bind;
    [apply makes_calls_stage, makes_calls_agent, SafetyAgent_single_attempt
    |intros safety].
  apply makes_calls_bind;
    [apply makes_calls_stage, makes_calls_agent, SummarizerAgent_single_attempt
    |intros summary].
  apply makes_calls_bind;
    [apply makes_calls_stage, makes_calls_save|intros _].
  apply makes_calls_bind;
    [apply makes_calls_stage, makes_calls_upload|intros _].
  apply makes_calls_ret.
Qed.

Lemma status_failed_not_complete (e : exn) :
  status_failed env e <> status_complete.
Proof. discriminate. Qed.

(** X15. Whenever [process_shift] returns, what it returns is a
    status: complete, and nothing was logged, or failed with the text
    of the exception, and exactly one entry, for this shift and with
    that exception, was added to the error log. *)
Theorem process_shift_returns_status (shift_id : string) (w w' : World)
    (status : json) :
  Main.process_shift env shift_id w = (Ok status, w') ->
  (status = status_complete /\ error_log w' = error_log w)
  \/ (exists e, status = status_failed env e
                /\ error_log w' = error_log w ++ [(shift_id, e)]).
Proof.
  intros H.
  destruct (process_shift_shape env _ _ _ _ H) as (evs & _ & Hshape).
  destruct Hshape;
    match goal with
    | Hr : Ok status = Ok _ |- _ =>
        apply (f_equal (fun r => match r with
                                 | Ok v => v
                                 | Raise _ => JNull
                                 end)) in Hr;
        cbn in Hr; subst status
    end; eauto.
Qed.

(** X16. A run of [process_shift] for one shift leaves what is stored
    for every other shift as it is: its report, as GET /report reads
    it, and its uploaded summary. *)
Theorem process_shift_keeps_other_shifts (shift_id other : string)
    (w : World) :
  other <> shift_id ->
  let w' := snd (Main.process_shift env shift_id w) in
  Main.get_report other w' = Main.get_report other w
  /\ s3_reports w' !! other = s3_reports w !! other.
Proof.
  intros Hne. cbv zeta.
  destruct (Main.process_shift env shift_id w) as [r w'] eqn:H.
  destruct (process_shift_shape env _ _ _ _ H) as (evs & _ & Hshape).
  cbn [snd]. unfold Main.get_report, get_from_database.
  destruct Hshape;
    repeat match goal with
           | Hq : db w' = _ |- _ => rewrite Hq; clear Hq
           | Hq : s3_reports w' = _ |- _ => rewrite Hq; clear Hq
           end;
    rewrite ?lookup_insert_ne by congruence; auto.
Qed.

(** X17. After a run of [process_shift] that returns status complete,
    GET /report of the shift returns a report with the keys shift_id,
    fatigue, safety and summary, and the summary uploaded for the
    shift is the summary of that report. *)
Theorem complete_run_report_readable (shift_id : string) (w w' : World) :
  Main.process_shift env shift_id w = (Ok status_complete, w') ->
  exists fatigue safety summary,
    Main.get_report shift_id w'
    = Some (stored_report shift_id fatigue safety summary)
    /\ s3_reports w' !! shift_id = Some summary.
Proof.
  intros H.
  destruct (process_shift_shape env _ _ _ _ H) as (evs & _ & Hshape).
  unfold Main.get_report, get_from_database.
  destruct Hshape;
    try (exfalso;
         match goal with
         | Hr : Ok _ = Ok (status_failed _ _) |- _ =>
             apply (f_equal (fun r => match r with
                                      | Ok v => v
                                      | Raise _ => JNull
                                      end)) in Hr;
             symmetry in Hr; now apply status_failed_not_complete in Hr
         end).
  do 3 eexists.
  match goal with
  | Hdb : db w' = _, Hs3 : s3_reports w' = _ |- _ => rewrite Hdb, Hs3
  end.
  rewrite !lookup_insert_eq. split; reflexivity.
Qed.

(** X18. A run of [process_shift] sends at most three prompts to the
    model backend, and exactly three when it returns status
    complete. *)
Theorem process_shift_backend_budget (shift_id : string) (w : World) :
  let run := Main.process_shift env shift_id w in
  exists prompts,
    llm_calls (snd run) = llm_calls w ++ prompts
    /\ length prompts <= 3
    /\ (fst run = Ok status_complete -> length prompts = 3).
Proof.
  cbv zeta. unfold Main.process_shift, try_except.
  destruct (Main.process_shift_body env shift_id w) as [[a|e] w1] eqn:Hb;
    destruct (process_shift_body_calls _ _ _ _ Hb) as (ps & Hps & Hle & Hok);
    exists ps; cbn; auto.
  split; [exact Hps|]. split; [exact Hle|].
  intros Hr.
  apply (f_equal (fun r => match r with Ok v => v | Raise _ => JNull end)) in Hr.
  now apply status_failed_not_complete in Hr.
Qed.

(** X19. When the transcription of a shift has fewer than 10 entries,
    the run of [process_shift] fails in the Fatigue agent: the status
    is failed, no prompt is sent to the model and nothing is stored or
    uploaded. *)
Theorem short_transcription_fails_run (shift_id : string) (w : World)
    (audio : Audio env) (metadata : gmap string json)
    (transcript : list TranscriptEntry) :
  download_from_s3 env shift_id = Ok audio ->
  get_shift_metadata env shift_id = Ok metadata ->
  transcribe env audio = Ok transcript ->
  length transcript < 10 ->
  let run := Main.process_shift env shift_id w in
  (exists e, fst run = Ok (status_failed env e))
  /\ llm_calls (snd run) = llm_calls w
  /\ db (snd run) = db w
  /\ s3_reports (snd run) = s3_reports w.
Proof.
  intros Hd Hm Ht Hlen. cbv zeta.
  destruct (Main.process_shift env shift_id w) as [r w'] eqn:H.
  unfold Main.process_shift, try_except, Main.process_shift_body in H.
  unfold mbind, M_bind, run_stage, lift in H.
  rewrite Hd in H. cbn [snd emit] in H.
  rewrite Hm in H. cbn [snd emit] in H.
  rewrite Ht in H. cbn [snd emit] in H.
  match type of H with
  | context [FatigueAgent_analyze env transcript metadata ?x] =>
      destruct (fatigue_short_transcript env transcript metadata x Hlen)
        as [e He]
  end.
  rewrite He in H. cbn in H. injection H as <- <-. cbn. eauto.
Qed.

End PipelineFacts.

Lemma process_shift_returns_status_witness :
  error_log (snd (Main.process_shift
                    (demo_collaborators healthy_backend ∅ scenario_transcript)
                    demo_shift_id empty_world))
  <> [].
Proof.
  pose (run := Main.process_shift
                 (demo_collaborators healthy_backend ∅ scenario_transcript)
                 demo_shift_id empty_world).
  destruct (process_shift_returns_status
              (demo_collaborators healthy_backend ∅ scenario_transcript)
              demo_shift_id empty_world (snd run)
              (JDict [("status", JStr "failed"); ("error", JStr "error")]))
    as [[Hc _]|(e & _ & Hlog)].
  - vm_compute. reflexivity.
  - discriminate Hc.
  - fold run. rewrite Hlog. discriminate.
Defined.

Lemma process_shift_keeps_other_shifts_witness :
  Main.get_report demo_shift_id
    (snd (Main.process_shift demo_env "shift_20240116_002" world_with_report))
  = Some previous_report.
Proof.
  destruct (process_shift_keeps_other_shifts demo_env "shift_20240116_002"
              demo_shift_id world_with_report ltac:(discriminate)) as [-> _].
  reflexivity.
Defined.

Lemma complete_run_report_readable_witness :
  exists fatigue safety summary,
    Main.get_report demo_shift_id
      (snd (Main.process_shift demo_env demo_shift_id empty_world))
    = Some (stored_report demo_shift_id fatigue safety summary)
    /\ s3_reports (snd (Main.process_shift demo_env demo_shift_id empty_world))
       !! demo_shift_id = Some summary.
Proof.
  apply (complete_run_report_readable demo_env demo_shift_id empty_world).
  vm_compute. reflexivity.
Defined.

Lemma short_transcription_fails_run_witness :
  llm_calls
    (snd (Main.process_shift
            (demo_collaborators healthy_backend ∅ scenario_transcript)
            demo_shift_id empty_world))
  = [].
Proof.
  exact (proj1 (proj2
    (short_transcription_fails_run
       (demo_collaborators healthy_backend ∅ scenario_transcript)
       demo_shift_id empty_world tt demo_metadata scenario_transcript
       eq_refl eq_refl eq_refl ltac:(vm_compute; lia)))).
Defined.


(** * More on the processing flow of section 4.2 *)

Section FlowFacts.
Variable env : Collaborators.


(** X20. In the flow of section 4.2 the arguments of [gather] are
    evaluated before any agent runs: when [fatigue_result], or else
    [safety_result], is not a module-level name, the flow raises
    NameError for it after the transcription, and no agent has run and
    nothing is stored. *)
Theorem flow_needs_bound_names (shift_id : string) (w : World)
    (audio : Audio env) (metadata : gmap string json)
    (transcript : list TranscriptEntry) :
  download_from_s3 env shift_id = Ok audio ->
  get_shift_metadata env shift_id = Ok metadata ->
  transcribe env audio = Ok transcript ->
  (globals env !! "fatigue_result" = None ->
   Flow.analyze_shift env shift_id w = (Raise (NameError "fatigue_result"), w))
  /\ (is_Some (globals env !! "fatigue_result") ->
      globals env !! "safety_result" = None ->
      Flow.analyze_shift env shift_id w
      = (Raise (NameError "safety_result"), w)).
Proof.
  intros Hd Hm Ht. unfold Flow.analyze_shift.
  rewrite bind_lift, Hd, bind_lift, Hm, bind_lift, Ht. cbv zeta.
  unfold Flow.lookup_name. split.
  - intros ->. rewrite bind_lift. reflexivity.
  - intros [g1 ->] ->. rewrite !bind_lift. reflexivity.
Qed.




End FlowFacts.

Lemma flow_needs_bound_names_witness :
  Flow.analyze_shift demo_env demo_shift_id empty_world
  = (Raise (NameError "fatigue_result"), empty_world).
Proof.
  apply (flow_needs_bound_names demo_env demo_shift_id empty_world tt
           demo_metadata demo_transcript eq_refl eq_refl eq_refl).
  reflexivity.
Defined.



(** * More on the upload form *)

Section UploadFormFacts.
Import UploadAudio.
Variable browser : Browser.

Lemma trim_start_again (n : nat) (s : string) :
  String.length s <= n -> trim_start (trim_start s) = trim_start s.
Proof.
  revert s. induction n as [|n IH]; intros s Hn.
  - destruct s; [reflexivity | cbn in Hn; lia].
  - destruct s as [|a s1]; [reflexivity|].
    cbn [String.length] in Hn. cbn [trim_start].
    destruct (space1 a) eqn:E1; [apply IH; lia|].
    destruct s1 as [|b s2]; [cbn [trim_start]; now rewrite E1|].
    cbn [String.length] in Hn.
    destruct (space2 a b) eqn:E2; [apply IH; lia|].
    destruct s2 as [|c s3]; [cbn [trim_start]; now rewrite E1, E2|].
    cbn [String.length] in Hn.
    destruct (space3 a b c) eqn:E3; [apply IH; lia|].
    cbn [trim_start]. now rewrite E1, E2, E3.
Qed.

Lemma blank_trim_start (s : string) : blank (trim_start s) = blank s.
Proof.
  unfold blank. now rewrite (trim_start_again (String.length s) s).
Qed.

Lemma nonempty_trim_end (s : string) : nonempty (trim_end s) = negb (blank s).
Proof.
  destruct s as [|c s]; [reflexivity|].
  cbn [trim_end]. now destruct (blank (String c s)).
Qed.

Lemma nonempty_trim (s : string) : nonempty (trim s) = negb (blank s).
Proof. unfold trim. now rewrite nonempty_trim_end, blank_trim_start. Qed.

Lemma negb_false (b : bool) : negb b = false -> b = true.
Proof. now destruct b. Qed.

(** X22. [validateForm] accepts exactly the forms with a selected
    file, a shift id, controller id, facility, position and schedule
    type that are not white space from end to end, a start and an end
    time that are not empty and of which the end does not compare at
    or before the start, and a traffic count that is not negative; a
    traffic count that is not a number passes. *)
Theorem validateForm_accepts_iff (st : State) :
  fst (validateForm browser st) = true <->
  is_Some (audioFile st)
  /\ blank (shiftId (formData st)) = false
  /\ blank (controllerId (formData st)) = false
  /\ blank (facility (formData st)) = false
  /\ startTime (formData st) <> ""
  /\ endTime (formData st) <> ""
  /\ js_le (Date_getTime browser (endTime (formData st)))
           (Date_getTime browser (startTime (formData st))) = false
  /\ blank (position (formData st)) = false
  /\ blank (scheduleType (formData st)) = false
  /\ match trafficCountAvg (formData st) with
     | Some count => (0 <= count)%Q
     | None => True
     end.
Proof.
  split.
  - intros Hok.
    destruct (accepted_times browser st Hok) as (Hs & He & Hle).
    apply validateForm_true in Hok. unfold form_errors in Hok.
    cbv zeta in Hok. rewrite Hs, He in Hok. cbn [andb] in Hok.
    apply set_if_empty in Hok as [Hneg Hok].
    apply set_if_empty in Hok as [Hsched Hok].
    apply set_if_empty in Hok as [Hpos Hok].
    apply set_if_empty in Hok as [_ Hok].
    apply set_if_empty in Hok as [_ Hok].
    apply set_if_empty in Hok as [_ Hok].
    apply set_if_empty in Hok as [Hfac Hok].
    apply set_if_empty in Hok as [Hctl Hok].
    apply set_if_empty in Hok as [Hshift Hok].
    apply set_if_empty in Hok as [Hfile _].
    rewrite nonempty_trim, negb_involutive in Hsched, Hpos, Hfac, Hctl, Hshift.
    apply negb_false in Hfile.
    apply bool_decide_eq_true in Hfile.
    apply nonempty_true in Hs, He.
    repeat split; try assumption.
    destruct (trafficCountAvg (formData st)) as [count|]; [|exact I].
    cbn in Hneg. now apply Qlt_bool_false in Hneg.
  - intros (Hfile & Hshift & Hctl & Hfac & Hs & He & Hle & Hpos & Hsched & Hneg).
    unfold validateForm. cbn [fst]. apply bool_decide_eq_true.
    unfold form_errors. cbv zeta.
    rewrite !nonempty_trim, Hshift, Hctl, Hfac, Hpos, Hsched.
    rewrite (bool_decide_eq_true_2 _ Hfile).
    destruct (startTime (formData st)) as [|c1 s1]; [congruence|].
    destruct (endTime (formData st)) as [|c2 s2]; [congruence|].
    cbn [nonempty negb andb set_if]. rewrite Hle. cbn [set_if].
    assert (Hcount : js_negative (trafficCountAvg (formData st)) = false).
    { destruct (trafficCountAvg (formData st)) as [count|]; [|reflexivity].
      cbn. unfold Py.Qlt_bool. apply negb_false_iff.
      now apply Qle_bool_iff. }
    rewrite Hcount. cbn [set_if]. apply map_size_empty.
Qed.

Lemma form_errors_with_file (st : State) (errs : gmap string string) :
  form_errors browser (with_file st (audioFile st) errs)
  = form_errors browser st.
Proof. reflexivity. Qed.

(** X23. Submitting the form again right after a submission queues
    nothing more. An accepted submission queues the selected file with
    the form data once, clears the file and resets the form; a refused
    one changes only the errors, is refused again and leaves the state
    as it is. *)
Theorem handleSubmit_queues_once (st : State) :
  let st1 := handleSubmit browser st in
  submitted (handleSubmit browser st1) = submitted st1
  /\ (if fst (validateForm browser st)
      then submitted st1 = submitted st ++ [(audioFile st, formData st)]
           /\ audioFile st1 = None
           /\ formData st1 = initialFormData
           /\ errors st1 = ∅
           /\ isSubmitting st1 = false
      else submitted st1 = submitted st
           /\ audioFile st1 = audioFile st
           /\ formData st1 = formData st
           /\ errors st1 <> ∅
           /\ handleSubmit browser st1 = st1).
Proof.
  cbv zeta.
  destruct (fst (validateForm browser st)) eqn:Hok.
  - assert (Hempty := validateForm_true browser st Hok).
    assert (Hst1 : handleSubmit browser st
                   = mkState None ∅ false
                       ("Successfully queued analysis for shift "
                        +:+ shiftId (formData st))
                       initialFormData
                       (submitted st ++ [(audioFile st, formData st)])).
    { unfold handleSubmit, validateForm in *. cbn [fst] in Hok.
      cbv zeta. rewrite Hok. cbn [negb with_file errors submitted audioFile formData].
      now rewrite Hempty. }
    rewrite Hst1. split; [|repeat split; reflexivity].
    now apply submit_without_file.
  - assert (Hst1 : handleSubmit browser st
                   = with_file st (audioFile st) (form_errors browser st)).
    { unfold handleSubmit, validateForm in *. cbn [fst] in Hok.
      cbv zeta. now rewrite Hok. }
    assert (Hagain : handleSubmit browser
                       (with_file st (audioFile st) (form_errors browser st))
                     = with_file st (audioFile st) (form_errors browser st)).
    { unfold handleSubmit, validateForm in *. cbn [fst] in Hok.
      cbv zeta. rewrite form_errors_with_file, Hok. reflexivity. }
    rewrite Hst1, Hagain. repeat split.
    cbn [with_file errors]. intros Hempty.
    unfold validateForm in Hok. cbn [fst] in Hok.
    apply bool_decide_eq_false in Hok. apply Hok.
    rewrite Hempty. apply map_size_empty.
Qed.

(** X24. [handleAudioChange] never touches the form data nor the
    queue. A file that it keeps leaves the errors of the other fields
    as they are; a file that it refuses replaces all errors: the
    errors of the other fields are dropped. *)
Theorem audio_change_errors (st : State) (file : File) :
  let st' := handleAudioChange browser (Some file) st in
  formData st' = formData st
  /\ submitted st' = submitted st
  /\ match audioFile st' with
     | Some kept =>
         kept = file
         /\ forall k, k <> "audioFile" -> errors st' !! k = errors st !! k
     | None => forall k, k <> "audioFile" -> errors st' !! k = None
     end.
Proof.
  cbv zeta. unfold handleAudioChange.
  destruct (negb (includes validTypes (file_type file))).
  - cbn. repeat split. intros k Hk. now apply lookup_singleton_ne.
  - cbv zeta.
    destruct (exceeds (getAudioDuration browser file) maxDurationSeconds).
    + cbn. repeat split. intros k Hk. now apply lookup_singleton_ne.
    + cbn. repeat split. intros k Hk. now apply lookup_delete_ne.
Qed.

(** X25. A file of one of the five audio types whose audio cannot be
    loaded is kept: [getAudioDuration] resolves to 0 on a load error,
    and 0 passes the check of the duration. *)
Theorem unreadable_audio_accepted (load : File -> AudioElement.loaded)
    (st : State) (file : File) :
  In (file_type file) validTypes ->
  load file = AudioElement.LoadError ->
  let st' := handleAudioChange (AudioElement.browser_of load browser)
               (Some file) st in
  audioFile st' = Some file /\ errors st' !! "audioFile" = None.
Proof.
  intros Htype Hload. cbv zeta. unfold handleAudioChange.
  apply includes_In in Htype. rewrite Htype. cbn [negb]. cbv zeta.
  unfold AudioElement.browser_of. cbn [getAudioDuration].
  unfold AudioElement.getAudioDuration. rewrite Hload.
  cbn. split; [reflexivity|]. apply lookup_delete_eq.
Qed.

End UploadFormFacts.

Lemma unreadable_audio_accepted_witness :
  UploadAudio.audioFile
    (UploadAudio.handleAudioChange
       (AudioElement.browser_of (fun _ => AudioElement.LoadError) demo_browser)
       (Some demo_file) (demo_state demo_form))
  = Some demo_file.
Proof.
  apply (unreadable_audio_accepted demo_browser
           (fun _ => AudioElement.LoadError) (demo_state demo_form) demo_file).
  - cbn. auto.
  - reflexivity.
Defined.


(** * The page of the shifts *)

Section ShiftSelectionFacts.
Import ShiftSelection.

Lemma has_In (set : list string) (x : string) : has set x = true <-> In x set.
Proof.
  unfold has. rewrite existsb_exists. split.
  - intros (y & Hin & Heq). apply String.eqb_eq in Heq. now subst.
  - intros Hin. exists x. split; [exact Hin | apply String.eqb_refl].
Qed.

Lemma has_false (set : list string) (x : string) :
  has set x = false <-> ~ In x set.
Proof.
  rewrite <- has_In. destruct (has set x); split; congruence.
Qed.

Lemma add_In (set : list string) (x y : string) :
  In y (add set x) <-> In y set \/ y = x.
Proof.
  unfold add. destruct (has set x) eqn:Hx.
  - apply has_In in Hx. split; [auto|]. intros [H| ->]; assumption.
  - rewrite in_app_iff. cbn. intuition congruence.
Qed.

Lemma add_NoDup (set : list string) (x : string) :
  List.NoDup set -> List.NoDup (add set x).
Proof.
  intros Hnd. unfold add. destruct (has set x) eqn:Hx; [exact Hnd|].
  apply has_false in Hx.
  apply List.NoDup_app; [exact Hnd| |].
  - apply List.NoDup_cons; [intros []|apply List.NoDup_nil].
  - intros y Hy [<-|[]]. contradiction.
Qed.

Lemma delete_In (set : list string) (x y : string) :
  In y (delete set x) <-> In y set /\ y <> x.
Proof.
  unfold delete. rewrite filter_In, negb_true_iff, String.eqb_neq.
  intuition congruence.
Qed.

Lemma delete_NoDup (set : list string) (x : string) :
  List.NoDup set -> List.NoDup (delete set x).
Proof. intros Hnd. unfold delete. now apply List.NoDup_filter. Qed.

Lemma delete_absent (set : list string) (x : string) :
  ~ In x set -> delete set x = set.
Proof.
  unfold delete. induction set as [|y set IH]; [reflexivity|].
  intros Hin. cbn [List.filter].
  destruct (String.eqb_spec x y) as [->|Hne].
  - exfalso. apply Hin. now left.
  - cbn [negb]. f_equal. apply IH. intros H. apply Hin. now right.
Qed.

Lemma fold_add (xs acc : list string) :
  (List.NoDup acc -> List.NoDup (fold_left add xs acc))
  /\ forall y, In y (fold_left add xs acc) <-> In y acc \/ In y xs.
Proof.
  revert acc. induction xs as [|x xs IH]; intros acc; cbn [fold_left].
  - split; [auto|]. intros y. cbn. tauto.
  - destruct (IH (add acc x)) as [Hnd Hin]. split.
    + intros H. apply Hnd. now apply add_NoDup.
    + intros y. rewrite Hin, add_In. cbn. intuition congruence.
Qed.

Lemma shown_defaults (shift : Shift) : shown "all" "" "all" shift = true.
Proof. reflexivity. Qed.

Lemma filter_all {A} (f : A -> bool) (l : list A) :
  (forall x, f x = true) -> List.filter f l = l.
Proof.
  intros Hf. induction l as [|x l IH]; [reflexivity|].
  cbn [List.filter]. now rewrite Hf, IH.
Qed.

(** X26. The facility filter of the page of the shifts: the options
    are the facilities of the shifts, each once; with the filters at
    their defaults every shift is shown; and each option, the other
    filters at their defaults, shows at least one shift, all of that
    facility. *)
Theorem facility_filter_options (shifts : list Shift) :
  List.NoDup (facilities shifts)
  /\ (forall f, In f (facilities shifts)
                <-> exists shift, In shift shifts /\ facility shift = f)
  /\ filteredShifts shifts "all" "" "all" = shifts
  /\ forall f, In f (facilities shifts) ->
       (exists shift, In shift (filteredShifts shifts f "" "all")
                      /\ facility shift = f)
       /\ (f <> "all" ->
           forall shift, In shift (filteredShifts shifts f "" "all") ->
                         facility shift = f).
Proof.
  unfold facilities, distinct.
  destruct (fold_add (map facility shifts) []) as [Hnd Hin].
  assert (Hopt : forall f, In f (fold_left add (map facility shifts) [])
                           <-> exists shift, In shift shifts /\ facility shift = f).
  { intros f. rewrite Hin, in_map_iff. cbn. split.
    - intros [[]|(s & Hs & Hins)]. eauto.
    - intros (s & Hins & Hs). right. eauto. }
  split; [apply Hnd, List.NoDup_nil|].
  split; [exact Hopt|].
  split; [apply filter_all, shown_defaults|].
  intros f Hf. apply Hopt in Hf as (s & Hins & Hs). split.
  - exists s. split; [|exact Hs].
    unfold filteredShifts. apply filter_In. split; [exact Hins|].
    unfold shown. rewrite Hs, String.eqb_refl. cbn.
    now rewrite andb_false_r.
  - intros Hne s' Hs'. unfold filteredShifts in Hs'.
    apply filter_In in Hs' as [_ Hshown]. unfold shown in Hshown.
    apply String.eqb_neq in Hne. rewrite Hne in Hshown. cbn [negb andb] in Hshown.
    destruct (String.eqb_spec (facility s') f) as [Heq|_]; [exact Heq|].
    discriminate.
Qed.

(** X27. [toggleShiftSelection] flips the membership of the shift and
    of no other, keeps the selection free of duplicates, and toggling
    twice gives back the same selected shifts; a shift that was not
    selected is, after two toggles, not selected and the selection is
    as before. *)
Theorem toggle_selection (shiftId : string) (selected : list string) :
  (forall x, In x (toggleShiftSelection shiftId selected)
             <-> (x <> shiftId /\ In x selected)
                 \/ (x = shiftId /\ ~ In shiftId selected))
  /\ (List.NoDup selected ->
      List.NoDup (toggleShiftSelection shiftId selected))
  /\ (forall x, In x (toggleShiftSelection shiftId
                        (toggleShiftSelection shiftId selected))
                <-> In x selected)
  /\ (~ In shiftId selected ->
      toggleShiftSelection shiftId (toggleShiftSelection shiftId selected)
      = selected).
Proof.
  assert (Hflip : forall sel x,
             In x (toggleShiftSelection shiftId sel)
             <-> (x <> shiftId /\ In x sel) \/ (x = shiftId /\ ~ In shiftId sel)).
  { intros sel x. unfold toggleShiftSelection.
    destruct (has sel shiftId) eqn:Hhas.
    - apply has_In in Hhas. rewrite delete_In. intuition congruence.
    - apply has_false in Hhas. rewrite add_In.
      destruct (String.eqb_spec x shiftId) as [->|Hne]; intuition congruence. }
  split; [apply Hflip|]. split; [|split].
  - intros Hnd. unfold toggleShiftSelection.
    destruct (has selected shiftId);
      [now apply delete_NoDup | now apply add_NoDup].
  - intros x. rewrite !Hflip.
    destruct (String.eqb_spec x shiftId) as [->|Hne].
    + destruct (has selected shiftId) eqn:Hhas.
      * apply has_In in Hhas. intuition.
      * apply has_false in Hhas. intuition.
    + intuition.
  - intros Hout. unfold toggleShiftSelection at 2.
    apply has_false in Hout. rewrite Hout. unfold add. rewrite Hout.
    unfold toggleShiftSelection.
    assert (Hin : has (selected ++ [shiftId]) shiftId = true).
    { apply has_In, in_app_iff. right. now left. }
    rewrite Hin. unfold delete. rewrite List.filter_app.
    cbn [List.filter]. rewrite String.eqb_refl. cbn [negb].
    rewrite app_nil_r. apply delete_absent. now apply has_false.
Qed.

Lemma select_in_order (ids selected : list string) :
  List.NoDup (selected ++ ids) ->
  fold_left (fun sel x => toggleShiftSelection x sel) ids selected
  = selected ++ ids.
Proof.
  revert selected. induction ids as [|x ids IH]; intros selected Hnd.
  - cbn. now rewrite app_nil_r.
  - cbn [fold_left].
    assert (Hout : has selected x = false).
    { apply has_false. intros Hin.
      apply List.NoDup_remove_2 in Hnd. apply Hnd, in_app_iff. now left. }
    unfold toggleShiftSelection at 2. rewrite Hout. unfold add. rewrite Hout.
    rewrite IH; rewrite <- app_assoc; [reflexivity | exact Hnd].
Qed.

(** X28. After selecting distinct shifts one after the other, starting
    with none selected, [handleBatchAnalyze] navigates to the analysis
    of the shift that was selected first, the same route as
    [handleAnalyze] of that shift; with no shift selected it does not
    navigate. *)
Theorem batch_analyze_first_selected (first : string) (others : list string) :
  List.NoDup (first :: others) ->
  handleBatchAnalyze
    (fold_left (fun sel x => toggleShiftSelection x sel) (first :: others) [])
  = Some (handleAnalyze first)
  /\ handleBatchAnalyze [] = None.
Proof.
  intros Hnd. split; [|reflexivity].
  rewrite select_in_order by exact Hnd. reflexivity.
Qed.

End ShiftSelectionFacts.

Lemma batch_analyze_first_selected_witness :
  ShiftSelection.handleBatchAnalyze
    (fold_left (fun sel x => ShiftSelection.toggleShiftSelection x sel)
       (map ShiftSelection.shiftId mockShifts) [])
  = Some "/shift/shift_20240115_001".
Proof.
  refine (proj1 (batch_analyze_first_selected "shift_20240115_001"
                   ["shift_20240115_002"; "shift_20240115_003";
                    "shift_20240115_004"] _)).
  repeat (apply List.NoDup_cons;
          [intros Hin; cbn in Hin; intuition discriminate|]).
  apply List.NoDup_nil.
Defined.

(** * The fatigue timeline *)

Section TimelineFacts.
Import TimelineChart.

Lemma fatigue_at_bounded (score : Q) (h : nat) : (fatigue_at score h <= 100)%Q.
Proof. unfold fatigue_at. apply Q.le_min_l. Qed.

Lemma fatigue_at_monotone (score : Q) (h1 h2 : nat) :
  h1 <= h2 -> (fatigue_at score h1 <= fatigue_at score h2)%Q.
Proof.
  intros Hle. unfold fatigue_at. apply Q.min_le_compat_l.
  assert (H12 : (inject_Z (Z.of_nat h1) <= inject_Z (Z.of_nat h2))%Q)
    by (rewrite <- Zle_Qle; lia).
  destruct (Nat.ltb_spec 6 h1) as [H1|H1], (Nat.ltb_spec 6 h2) as [H2|H2];
    try lia.
  - lra.
  - assert (H6 : (inject_Z 6 <= inject_Z (Z.of_nat h2))%Q)
      by (rewrite <- Zle_Qle; lia).
    change (inject_Z 6) with 6%Q in H6. lra.
  - lra.
Qed.

Lemma timelineData_lookup (score hours : Q) (i : nat) (p : point) :
  nth_error (timelineData score hours) i = Some p ->
  p = mkPoint (i + 1) (fatigue_at score (i + 1)).
Proof.
  unfold timelineData. intros H.
  rewrite nth_error_map in H.
  destruct (nth_error (seq 0 (Z.to_nat (Qceiling hours))) i) as [k|] eqn:Hk;
    [|discriminate].
  assert (Hlt : i < length (seq 0 (Z.to_nat (Qceiling hours))))
    by (apply nth_error_Some; congruence).
  rewrite length_seq in Hlt.
  rewrite nth_error_nth' with (d := 0) in Hk by (now rewrite length_seq).
  rewrite seq_nth in Hk by exact Hlt.
  cbn in Hk, H. injection Hk as <-. now injection H as <-.
Qed.

(** X29. The fatigue timeline has one point for every started hour on
    duty, numbered from 1; no point is above 100, and the fatigue
    never decreases from one hour to a later one. *)
Theorem timeline_bounded_and_rising (score hours : Q) :
  length (timelineData score hours) = Z.to_nat (Qceiling hours)
  /\ (forall i p, nth_error (timelineData score hours) i = Some p ->
                  hour p = i + 1 /\ (fatigue p <= 100)%Q)
  /\ forall i j p q,
       i <= j ->
       nth_error (timelineData score hours) i = Some p ->
       nth_error (timelineData score hours) j = Some q ->
       (fatigue p <= fatigue q)%Q.
Proof.
  split; [|split].
  - unfold timelineData. now rewrite length_map, length_seq.
  - intros i p Hp. apply timelineData_lookup in Hp as ->. cbn [hour fatigue].
    split; [reflexivity | apply fatigue_at_bounded].
  - intros i j p q Hij Hp Hq.
    apply timelineData_lookup in Hp as ->.
    apply timelineData_lookup in Hq as ->. cbn [fatigue].
    apply fatigue_at_monotone. lia.
Qed.

End TimelineFacts.
